(** * Lira terminal reader: the list widget and the content renderer

    A shallow embedding of [lira/tui/widgets.py] (the [List] widget, its
    elements and the section-level list built on it) and of
    [lira/ui.py] ([ContentArea.get_label] and [ContentArea.render]),
    followed by the properties of the navigation and rendering core.

    Conventions of the embedding.
    - A Python [int] is a [Z]; a Python [str] is a [string] holding its
      UTF-8 bytes; [None]-or-value is an [option].
    - A method that mutates [self] and may raise is a function from the
      state to a result and the state after it: what was assigned before
      an exception is raised stays assigned, as in Python.
    - A callback of a list element is a function on the world outside the
      list (the navigation panel, the content area, the terminal title),
      as every callback this repository builds is. *)

From stdpp Require Import base numbers option list strings gmap pretty.

Local Open Scope Z_scope.

(** ** Exceptions and the monad of methods *)

Inductive exception : Type :=
| IndexError
| KeyError (key : string)
| Exception (message : string).

Inductive result (A : Type) : Type :=
| Ok (a : A)
| Raise (e : exception).
Arguments Ok {A} a.
Arguments Raise {A} e.

(** A method over a state [S]: the state after the call is returned on
    both outcomes. *)
Definition M (S A : Type) : Type := S → result A * S.

Definition ret {S A} (a : A) : M S A := λ s, (Ok a, s).

Definition raise {S A} (e : exception) : M S A := λ s, (Raise e, s).

Definition bind {S A B} (m : M S A) (f : A → M S B) : M S B :=
  λ s, match m s with
       | (Ok a, s') => f a s'
       | (Raise e, s') => (Raise e, s')
       end.

Definition gets {S A} (f : S → A) : M S A := λ s, (Ok (f s), s).

Definition modify {S} (f : S → S) : M S unit := λ s, (Ok tt, f s).

Global Instance M_ret {S} : MRet (M S) := λ A, @ret S A.
Global Instance M_bind {S} : MBind (M S) := λ A B f m, @bind S A B m f.

(** ** Python built-ins used by the widgets *)

(** [l[i]]: a negative index counts from the end; [None] stands for
    [IndexError]. *)
Definition py_getitem {A} (l : list A) (i : Z) : option A :=
  let n := Z.of_nat (length l) in
  let j := if i <? 0 then i + n else i in
  if (j <? 0) || (n <=? j) then None else l !! Z.to_nat j.

(** [enumerate(l)], counting from [start]. *)
Fixpoint enumerate_from {A} (start : Z) (l : list A) : list (Z * A) :=
  match l with
  | [] => []
  | a :: l' => (start, a) :: enumerate_from (start + 1) l'
  end.

Definition enumerate {A} (l : list A) : list (Z * A) := enumerate_from 0 l.

(** The line separator, one byte, which in UTF-8 is never part of the
    encoding of another character. *)
Definition newline : Ascii.ascii := Ascii.ascii_of_nat 10.
Definition space : Ascii.ascii := Ascii.ascii_of_nat 32.

(** [s.replace(old, new)] for one-character [old] and [new]. *)
Fixpoint replace (old new : Ascii.ascii) (s : string) : string :=
  match s with
  | EmptyString => EmptyString
  | String c s' =>
      String (if Ascii.eqb c old then new else c) (replace old new s')
  end.

(** [s.split(c)] for a one-character separator: the parts between the
    separators, one more than there are separators. *)
Fixpoint split_char (c : Ascii.ascii) (s : string) : list string :=
  match s with
  | EmptyString => [EmptyString]
  | String a s' =>
      if Ascii.eqb a c then EmptyString :: split_char c s'
      else
        match split_char c s' with
        | part :: parts => String a part :: parts
        | [] => [String a EmptyString]
        end
  end.

(** [len(s)]: the number of characters, that is of bytes that do not
    continue a UTF-8 sequence (those are 10xxxxxx). *)
Fixpoint py_len (s : string) : nat :=
  match s with
  | EmptyString => O
  | String c s' =>
      let b := Z.of_nat (Ascii.nat_of_ascii c) in
      if Z.land b 192 =? 128 then py_len s' else S (py_len s')
  end.

(** [c * n] for a one-character string [c]. *)
Fixpoint repeat_char (c : Ascii.ascii) (n : nat) : string :=
  match n with
  | O => EmptyString
  | S n' => String c (repeat_char c n')
  end.

(** Number of occurrences of a character. *)
Fixpoint count_char (c : Ascii.ascii) (s : string) : nat :=
  match s with
  | EmptyString => O
  | String c' s' => (if Ascii.eqb c' c then 1 else 0)%nat + count_char c s'
  end.

(** ** The document collection, as the widgets see it

    Books, chapters and sections come from the document collection, which
    is outside these sources; the records hold what the widgets and the
    renderer read from them. *)

Module document.

(** A parsed content node: [node.tagname] and [node.text()]. *)
Record Node : Type := { tagname : string; node_text : string }.

(** A section: [section.options.title] and [section.children]. *)
Record BookSection : Type := { options_title : string; children : list Node }.

(** A book: [book.metadata], a dictionary. *)
Record Book : Type := { metadata : gmap string string }.

(** A chapter: [chapter.book], [chapter.title] and [chapter.toc(depth)],
    a list of pairs of a section and its depth. *)
Record BookChapter : Type := {
  book : Book;
  chapter_title : string;
  toc : Z → list (BookSection * Z)
}.

End document.

Export document.

(** ** [lira/tui/widgets.py] *)

Module widgets.

(** [prompt_toolkit.layout.screen.Point]. *)
Record Point : Type := mkPoint { point_x : Z; point_y : Z }.

(** [prompt_toolkit.mouse_events.MouseEventType]. *)
Inductive MouseEventType : Type :=
| MOUSE_UP
| MOUSE_DOWN
| SCROLL_UP
| SCROLL_DOWN
| MOUSE_MOVE.

Record MouseEvent : Type := { position : Point; event_type : MouseEventType }.

(** The keys [List.get_key_bindings] binds; [Space] is the key [" "]. *)
Inductive Keys : Type := Up | BackTab | Down | Tab | Space | Enter.

(** [HTML(template).format(args)], kept as written. *)
Inductive HTML : Type := HTML_format (template : string) (args : list string).

(** The handler of a text fragment: [partial(self.mouse_select, i)]. *)
Inductive MouseHandler : Type := partial_mouse_select (i : Z).

Section ListWidget.

Context {World : Type}.

(** A callable stored in an element: it acts on the world outside the
    list and may raise. *)
Definition Callback : Type := M World unit.

(** [class ListElement]. *)
Record ListElement : Type := {
  text : string;
  on_select : option Callback;
  on_focus : option Callback
}.

(** The attributes of [class List] that its methods read and write; the
    toolkit windows built from them hold no state of their own. *)
Record List : Type := {
  index : Z;
  get_bullet : option (Z → string);
  selected : Z;
  elements : list ListElement;
  title : option HTML;
  allow_select : bool;
  cursor : Point
}.

(** [List.__init__]; [elements or []] turns [None] into the empty list. *)
Definition List__init__ (title : option HTML)
    (elements : option (list ListElement))
    (get_bullet : option (Z → string)) (allow_select : bool) : List :=
  {| index := 0;
     get_bullet := get_bullet;
     selected := -1;
     elements := match elements with Some l => l | None => [] end;
     title := title;
     allow_select := allow_select;
     cursor := mkPoint 0 0 |}.

(** What a method of the list runs on: the list itself, the world its
    callbacks act on, and the callbacks invoked so far, oldest first (a
    record kept for the proofs; the code has no such log). *)
Record Frame : Type := {
  self : List;
  world : World;
  invoked : list Callback
}.

Definition set_index (i : Z) : M Frame unit :=
  modify (λ s,
    {| self := {| index := i;
                  get_bullet := get_bullet (self s);
                  selected := selected (self s);
                  elements := elements (self s);
                  title := title (self s);
                  allow_select := allow_select (self s);
                  cursor := cursor (self s) |};
       world := world s;
       invoked := invoked s |}).

Definition set_selected (i : Z) : M Frame unit :=
  modify (λ s,
    {| self := {| index := index (self s);
                  get_bullet := get_bullet (self s);
                  selected := i;
                  elements := elements (self s);
                  title := title (self s);
                  allow_select := allow_select (self s);
                  cursor := cursor (self s) |};
       world := world s;
       invoked := invoked s |}).

Definition set_cursor (p : Point) : M Frame unit :=
  modify (λ s,
    {| self := {| index := index (self s);
                  get_bullet := get_bullet (self s);
                  selected := selected (self s);
                  elements := elements (self s);
                  title := title (self s);
                  allow_select := allow_select (self s);
                  cursor := p |};
       world := world s;
       invoked := invoked s |}).

(** Calling a callback: it runs on the world and is logged. *)
Definition invoke (f : Callback) : M Frame unit :=
  λ s, let (r, w) := f (world s) in
       (r, {| self := self s; world := w; invoked := invoked s ++ [f] |}).

(** A toolkit function that only acts on the world. *)
Definition toolkit (f : World → World) : M Frame unit :=
  modify (λ s,
    {| self := self s; world := f (world s); invoked := invoked s |}).

(** [List._get_line_prefix]. *)
Definition _get_line_prefix (l : List) (line wrap_count : Z) : string :=
  let bullet :=
    match get_bullet l with Some f => f line | None => " " end in
  let bullet :=
    if allow_select l
    then if selected l =? line then "• " +:+ bullet else "  " +:+ bullet
    else bullet in
  if wrap_count =? 0 then bullet else repeat_char space (py_len bullet).

(** [List._get_text]: one fragment (style, text, mouse handler) a row. *)
Definition _get_text (l : List) : list (string * string * MouseHandler) :=
  (λ '(i, element),
     let text := replace newline space (text element) in
     let style := EmptyString in
     let text :=
       if i <? Z.of_nat (length (elements l)) - 1
       then text +:+ String newline EmptyString
       else text in
     let style :=
       if i =? index l then "class:list-item.focused" else style in
     (style, text, partial_mouse_select i)) <$> enumerate (elements l).

(** [List.current_element], a property: [self.elements[self.index]]. *)
Definition current_element : M Frame ListElement :=
  l ← gets self;
  match py_getitem (elements l) (index l) with
  | Some element => ret element
  | None => raise IndexError
  end.

(** [List.select]. *)
Definition select (index' : Z) : M Frame unit :=
  set_index index';;
  i ← gets (λ s, index (self s));
  set_selected i;;
  i ← gets (λ s, index (self s));
  set_cursor (mkPoint 0 i);;
  element ← current_element;
  match on_select element with
  | Some f => invoke f
  | None => ret tt
  end.

(** [List.focus]. *)
Definition focus (index' : Z) : M Frame unit :=
  set_index index';;
  i ← gets (λ s, index (self s));
  set_cursor (mkPoint 0 i);;
  element ← current_element;
  match on_focus element with
  | Some f => invoke f
  | None => ret tt
  end.

(** [List.mouse_select]. *)
Definition mouse_select (index' : Z) (mouse_event : MouseEvent)
    : M Frame unit :=
  match event_type mouse_event with
  | MOUSE_UP => select index'
  | _ => ret tt
  end.

(** [List.previous]. *)
Definition previous : M Frame unit :=
  i ← gets (λ s, Z.max (index (self s) - 1) 0);
  focus i.

(** [List.next]. *)
Definition next : M Frame unit :=
  i ← gets (λ s,
        Z.min (index (self s) + 1) (Z.of_nat (length (elements (self s))) - 1));
  focus i.

(** The fragment's handler called with a mouse event. *)
Definition call_handler (h : MouseHandler) (mouse_event : MouseEvent)
    : M Frame unit :=
  match h with
  | partial_mouse_select i => mouse_select i mouse_event
  end.

(** The handler of the fragment of a row called with a mouse event, and
    nothing where the list has no such row. The row is given, not read
    from the event: these calls are all the calls a dispatch of mouse
    events over the fragments can make, and more; the dispatch of the
    toolkit itself is [control_mouse_handler]. *)
Definition mouse_handler (row : nat) (mouse_event : MouseEvent)
    : M Frame unit :=
  l ← gets self;
  match _get_text l !! row with
  | Some (_, _, h) => call_handler h mouse_event
  | None => ret tt
  end.

(** [split_lines] of the toolkit, with the line being filled: a
    fragment is cut at its line separators, each part but the last ends
    a line, the last part starts the next; the handler stays on every
    part. The last line is always given. *)
Fixpoint yield_parts (style : string) (h : MouseHandler)
    (parts : list string) (line : list (string * string * MouseHandler))
    : list (list (string * string * MouseHandler))
      * list (string * string * MouseHandler) :=
  match parts with
  | [] => ([], line)
  | part :: parts' =>
      let (lines, line') := yield_parts style h parts' [] in
      ((line ++ [(style, part, h)]) :: lines, line')
  end.

Fixpoint split_lines_from (fragments : list (string * string * MouseHandler))
    (line : list (string * string * MouseHandler))
    : list (list (string * string * MouseHandler)) :=
  match fragments with
  | [] => [line]
  | (style, string, h) :: fragments' =>
      let parts := split_char newline string in
      let (lines, line) :=
        yield_parts style h (take (length parts - 1) parts) line in
      lines
        ++ split_lines_from fragments'
             (line ++ [(style, default EmptyString (last parts), h)])
  end.

Definition split_lines (fragments : list (string * string * MouseHandler))
    : list (list (string * string * MouseHandler)) :=
  split_lines_from fragments [].

(** The loop of the control over the fragments of a line: the handler
    of the first fragment that ends after column [xpos]. *)
Fixpoint find_handler (fragments : list (string * string * MouseHandler))
    (count : nat) (xpos : Z) : option MouseHandler :=
  match fragments with
  | [] => None
  | (_, text, h) :: fragments' =>
      let count := (count + py_len text)%nat in
      if xpos <? Z.of_nat count then Some h
      else find_handler fragments' count xpos
  end.

(** What a mouse handler of the toolkit returns. *)
Inductive Handled : Type := NotImplemented | Done.

(** [FormattedTextControl.mouse_handler] of the toolkit, on the
    fragments of [_get_text]: the event carries its position in the
    text, the line is looked up with [y] and the fragment with [x];
    where there is no line or no fragment under the position no handler
    is called and [NotImplemented] is returned. *)
Definition control_mouse_handler (mouse_event : MouseEvent)
    : M Frame Handled :=
  l ← gets self;
  match _get_text l with
  | [] => ret NotImplemented
  | fragments =>
      match py_getitem (split_lines fragments)
              (point_y (position mouse_event)) with
      | None => ret NotImplemented
      | Some line =>
          match find_handler line 0 (point_x (position mouse_event)) with
          | Some h => call_handler h mouse_event;; ret Done
          | None => ret NotImplemented
          end
      end
  end.

(** [focus_next] and [focus_previous] of the toolkit move the keyboard
    focus to a sibling region of the layout, which is part of the world. *)
Variable focus_next focus_previous : World → World.

(** [List.get_key_bindings]: the handler bound to each key. *)
Definition get_key_bindings (key : Keys) : M Frame unit :=
  match key with
  | Up => previous
  | BackTab =>
      i ← gets (λ s, index (self s));
      if i <=? 0 then toolkit focus_previous else previous
  | Down => next
  | Tab =>
      s ← gets id;
      if Z.of_nat (length (elements (self s))) - 1 <=? index (self s)
      then toolkit focus_next
      else next
  | Space | Enter =>
      i ← gets (λ s, index (self s));
      select i
  end.

(** Calls made one after the other, each on the state the one before
    left, whether it raised or not: every key press is handled on its
    own. *)
Fixpoint call_times (n : nat) (m : M Frame unit) (s : Frame) : Frame :=
  match n with
  | O => s
  | S n' => call_times n' m (m s).2
  end.

(** [ListElement(text=t)]: the callbacks default to [None]. *)
Definition text_only (t : string) : ListElement :=
  {| text := t; on_select := None; on_focus := None |}.

(** The list after the three assignments of [select]. *)
Definition committed (i : Z) (l : List) : List :=
  {| index := i;
     get_bullet := get_bullet l;
     selected := i;
     elements := elements l;
     title := title l;
     allow_select := allow_select l;
     cursor := mkPoint 0 i |}.

(** The list after the two assignments of [focus]. *)
Definition focused (i : Z) (l : List) : List :=
  {| index := i;
     get_bullet := get_bullet l;
     selected := selected l;
     elements := elements l;
     title := title l;
     allow_select := allow_select l;
     cursor := mkPoint 0 i |}.

(** The outcome of [if callback: callback()] once the list is [l]. *)
Definition after_callback (callback : option Callback) (l : List)
    (s : Frame) : result unit * Frame :=
  match callback with
  | None => (Ok tt, {| self := l; world := world s; invoked := invoked s |})
  | Some f =>
      ((f (world s)).1,
       {| self := l; world := (f (world s)).2; invoked := invoked s ++ [f] |})
  end.

(** What a raised exception of a call on the list comes from: the
    lookup of the element, with the world and the log untouched, or the
    element's callback, invoked once. *)
Definition failure_of (callback : ListElement → option Callback)
    (s s' : Frame) (i : Z) (e : exception) : Prop :=
  match py_getitem (elements (self s)) i with
  | None => e = IndexError ∧ world s' = world s ∧ invoked s' = invoked s
  | Some element =>
      ∃ f, callback element = Some f ∧
           (f (world s)).1 = Raise e ∧
           world s' = (f (world s)).2 ∧
           invoked s' = invoked s ++ [f]
  end.

(** The callbacks an optional callback stands for: one or none. *)
Definition callbacks (callback : option Callback) : list Callback :=
  match callback with Some f => [f] | None => [] end.

(** The line separators in the text of the fragments. *)
Definition line_separators (fragments : list (string * string * MouseHandler))
    : nat :=
  sum_list_with (λ fragment, count_char newline fragment.1.2) fragments.


(** What the control receives from the event loop: a key it binds, or a
    mouse event over one of its rows. *)
Inductive Input : Type :=
| KeyPress (key : Keys)
| MouseOver (row : nat) (mouse_event : MouseEvent).

(** The handler the control runs on an input. *)
Definition handle (input : Input) : M Frame unit :=
  match input with
  | KeyPress key => get_key_bindings key
  | MouseOver row mouse_event => mouse_handler row mouse_event
  end.

(** Inputs handled one after the other, each on the state the one before
    left, whether its handler raised or not. *)
Fixpoint handle_all (inputs : list Input) (s : Frame) : Frame :=
  match inputs with
  | [] => s
  | input :: inputs' => handle_all inputs' (handle input s).2
  end.

(** The list is in the shape its constructor gives a non-empty list: the
    focus on a row, the committed index -1 or a row, the cursor on the
    focused row. *)
Definition in_shape (l : List) : Prop :=
  0 ≤ index l < Z.of_nat (length (elements l)) ∧
  (selected l = -1 ∨ 0 ≤ selected l < Z.of_nat (length (elements l))) ∧
  cursor l = mkPoint 0 (index l).

(** A fragment whose handler is that of a row of the list. *)
Definition of_a_row (l : List)
    (fragment : string * string * MouseHandler) : Prop :=
  ∃ row : nat,
    (row < length (elements l))%nat ∧
    fragment.2 = partial_mouse_select (Z.of_nat row).

(** The bullet [_get_line_prefix] starts from. *)
Definition bullet_of (l : List) (line : Z) : string :=
  match get_bullet l with Some f => f line | None => " " end.

(** The fragments drawn with the style of the focused row. *)
Definition focused_fragments (l : List)
    : list (string * string * MouseHandler) :=
  filter (λ fragment, fragment.1.1 = "class:list-item.focused") (_get_text l).

End ListWidget.

Arguments ListElement : clear implicits.
Arguments List : clear implicits.
Arguments Frame : clear implicits.
Arguments Callback : clear implicits.

(** *** [class ChapterSectionsList(LiraList)] *)

Module ChapterSectionsList.

Section ChapterSectionsList.

Context {World : Type}.

(** [HTML(template).format(args)] of the toolkit: it escapes the
    arguments, puts them in the template and parses the outcome as XML,
    which raises where the outcome is not well formed (a control
    character in an argument). *)
Variable html_format : string → list string → result HTML.

(** [self.tui.content.render_section], which these sources call and do
    not define: it acts on the content area, part of the world. *)
Variable render_section : BookSection → Callback World.

Record t : Type := {
  index : Z;
  chapter : BookChapter;
  toc : list (BookSection * Z);
  container : List World
}.

(** The class attribute, which overrides [LiraList.allow_select]. *)
Definition allow_select : bool := true.

(** [_get_title]; a dictionary without the key raises [KeyError], and
    the format of the title raises what the toolkit raises. *)
Definition _get_title (chapter : BookChapter) : result HTML :=
  match metadata (book chapter) !! "title" with
  | Some book_title =>
      html_format
        "<title>{}</title> <separator>></separator> <title>{}</title>"
        [book_title; chapter_title chapter]
  | None => Raise (KeyError "title")
  end.

(** [_get_bullet]: the chapter and the line, both counted from one. *)
Definition _get_bullet (index line : Z) : string :=
  pretty (index + 1) +:+ "." +:+ pretty (line + 1) +:+ ". ".

(** [_select]. *)
Definition _select (section : BookSection) : Callback World :=
  render_section section.

(** [_get_elements]. *)
Definition _get_elements (toc : list (BookSection * Z))
    : list (ListElement World) :=
  (λ '(section, _),
     {| text := options_title section;
        on_select := Some (_select section);
        on_focus := None |}) <$> toc.

(** [__init__]: the attributes, then [LiraList.__init__], which builds
    the list from the title, the elements, the bullet and the class's
    [allow_select], then the selection of the first item. An exception
    leaves no object. *)
Definition __init__ (chapter : BookChapter) (index : Z) : M World t :=
  λ w,
    let toc := document.toc chapter 1 in
    match _get_title chapter with
    | Raise e => (Raise e, w)
    | Ok title =>
        let container :=
          List__init__ (Some title) (Some (_get_elements toc))
            (Some (_get_bullet index)) allow_select in
        let s :=
          select 0 {| self := container; world := w; invoked := [] |} in
        match s.1 with
        | Raise e => (Raise e, world s.2)
        | Ok _ =>
            (Ok {| index := index;
                   chapter := chapter;
                   toc := toc;
                   container := self s.2 |},
             world s.2)
        end
    end.

End ChapterSectionsList.

End ChapterSectionsList.

(** *** [class Button(ToolkitButton)] *)

Module Button.

(** The local function [handler] of [_get_text_fragments], which the
    fragments carry. *)
Inductive FragmentHandler : Type := handler_closure.

Section Button.

Context {World : Type}.

(** The attributes of the toolkit's button that the method reads. *)
Record t : Type := {
  text : string;
  handler : option (Callback World);
  width : Z
}.

(** [("{:^" + str(width) + "}").format(text)]: the text centred in
    [width] characters, the odd blank on the right, and as it is when it
    is wider. A negative width gives the specification a sign, which
    the format of a string refuses with a [ValueError], here the
    [Exception] with its message. *)
Definition format_center (width : Z) (text : string) : result string :=
  if width <? 0
  then Raise (Exception "Sign not allowed in string format specifier")
  else
    let total := (Z.to_nat width - py_len text)%nat in
    let left := (total / 2)%nat in
    Ok (repeat_char space left +:+ text
          +:+ repeat_char space (total - left)).

(** [Button._get_text_fragments]. *)
Definition _get_text_fragments (b : t)
    : result (list (string * string * option FragmentHandler)) :=
  let width := width b - 2 in
  match format_center width (text b) with
  | Raise e => Raise e
  | Ok text =>
      Ok [ ("class:button.arrow", "[", Some handler_closure);
           ("[SetCursorPosition]", EmptyString, None);
           ("class:button.text", text, Some handler_closure);
           ("class:button.arrow", "]", Some handler_closure) ]
  end.

(** The local function [handler] called with a mouse event. *)
Definition call_handler (b : t) (mouse_event : MouseEvent) : M World unit :=
  match handler b with
  | Some f =>
      match event_type mouse_event with
      | MOUSE_UP => f
      | _ => ret tt
      end
  | None => ret tt
  end.

End Button.

Arguments t : clear implicits.

End Button.

(** *** [class BookChaptersList(LiraList)] *)

Module BookChaptersList.

Section BookChaptersList.

Context {World : Type}.

(** What the class reaches outside these sources: the toolkit's
    [HTML(template).format(args)], which raises where the formatted
    text is not well-formed XML, [book.chapters], [chapter.parse()],
    and, through [self.tui], [content.render_section] and [menu.push],
    called here on a list of sections. *)
Variable html_format : string → list string → result HTML.
Variable chapters : Book → list BookChapter.
Variable parse : BookChapter → Callback World.
Variable render_section : BookSection → Callback World.
Variable push : @ChapterSectionsList.t World → Callback World.

Record t : Type := {
  book : Book;
  container : List World
}.

(** [LiraList.allow_select], which the class inherits. *)
Definition allow_select : bool := false.

(** [_get_title]. *)
Definition _get_title (book : Book) : result HTML :=
  match metadata book !! "title" with
  | Some book_title => html_format "<title>{}</title>" [book_title]
  | None => Raise (KeyError "title")
  end.

(** [_get_bullet]. *)
Definition _get_bullet (line : Z) : string := pretty (line + 1) +:+ ". ".

(** [_select]: the list of sections is built, then pushed. *)
Definition _select (chapter : BookChapter) (index : Z) : Callback World :=
  bind (ChapterSectionsList.__init__ html_format render_section
          chapter index) push.

(** The loop of [_get_elements] over [enumerate(self.book.chapters)],
    with the elements appended so far. *)
Fixpoint _get_elements_loop (entries : list (Z * BookChapter))
    (elements : list (ListElement World))
    : M World (list (ListElement World)) :=
  match entries with
  | [] => ret elements
  | (i, chapter) :: entries' =>
      bind (parse chapter) (λ _,
        _get_elements_loop entries'
          (elements ++ [ {| widgets.text := chapter_title chapter;
                            on_select := Some (_select chapter i);
                            on_focus := None |} ]))
  end.

(** [_get_elements]. *)
Definition _get_elements (book : Book) : M World (list (ListElement World)) :=
  _get_elements_loop (enumerate (chapters book)) [].

(** [__init__]: the attribute, then [LiraList.__init__], whose call of
    [List] evaluates the title before the elements. *)
Definition __init__ (book : Book) : M World t :=
  match _get_title book with
  | Raise e => raise e
  | Ok title =>
      bind (_get_elements book) (λ elements,
        ret {| book := book;
               container :=
                 List__init__ (Some title) (Some elements)
                   (Some _get_bullet) allow_select |})
  end.

End BookChaptersList.

Arguments t : clear implicits.

End BookChaptersList.

(** *** [class BooksList(LiraList)] *)

Module BooksList.

Section BooksList.

Context {World : Type}.

(** What the class reaches outside these sources: [book.parse()],
    [set_title] of [lira.tui.utils], [menu.push], called here on a list
    of chapters, and what the list of chapters reaches. *)
Variable html_format : string → list string → result HTML.
Variable parse : Book → Callback World.
Variable set_title : string → Callback World.
Variable push : BookChaptersList.t World → Callback World.
Variable chapters : Book → list BookChapter.
Variable parse_chapter : BookChapter → Callback World.
Variable render_section : BookSection → Callback World.
Variable push_sections : @ChapterSectionsList.t World → Callback World.

Record t : Type := { container : List World }.

Definition allow_select : bool := false.

(** [_get_title]: the template and the argument are constants, and
    the text they give is well formed. *)
Definition _get_title : HTML := HTML_format "<title>{}</title>" ["Books"].

(** [LiraList._get_bullet]. *)
Definition _get_bullet (line : Z) : string := "• ".

(** [select]: the list of chapters is built, the terminal title is set
    to the title of the book, the list is pushed. *)
Definition select (book : Book) (index : Z) : Callback World :=
  bind (BookChaptersList.__init__ html_format chapters parse_chapter
          render_section push_sections book) (λ widget,
    match metadata book !! "title" with
    | None => raise (KeyError "title")
    | Some book_title => bind (set_title book_title) (λ _, push widget)
    end).

(** The loop of [_get_elements] over [enumerate(self.lira.books)]. *)
Fixpoint _get_elements_loop (entries : list (Z * Book))
    (elements : list (ListElement World))
    : M World (list (ListElement World)) :=
  match entries with
  | [] => ret elements
  | (i, book) :: entries' =>
      bind (parse book) (λ _,
        match metadata book !! "title" with
        | None => raise (KeyError "title")
        | Some title =>
            _get_elements_loop entries'
              (elements ++ [ {| widgets.text := title;
                                on_select := Some (select book i);
                                on_focus := None |} ])
        end)
  end.

(** [_get_elements], on the books of [self.lira]. *)
Definition _get_elements (books : list Book)
    : M World (list (ListElement World)) :=
  _get_elements_loop (enumerate books) [].

(** [LiraList.__init__], on the books of [tui.lira]. *)
Definition __init__ (books : list Book) : M World t :=
  bind (_get_elements books) (λ elements,
    ret {| container :=
             List__init__ (Some _get_title) (Some elements)
               (Some _get_bullet) allow_select |}).

End BooksList.

Arguments t : clear implicits.

End BooksList.

End widgets.

(** ** [lira/ui.py] *)

Module ui.

(** [themes], and [styles = themes["default"]]. *)
Definition themes : gmap string (gmap string string) :=
  {[ "default" :=
       list_to_map
         [ ("Text", "#fff");
           ("Strong", "#fff bold");
           ("Emphasis", "#fff italic");
           ("Literal", "#fff");
           ("Paragraph", "#fff");
           ("CodeBlock", "#fff");
           ("Prompt", "bg:#999999 #fff");
           ("TestBlock", "#fff");
           ("Section", "#fff");
           ("Separator", "#fff") ] ]}.

Definition styles : gmap string string := themes !!! "default".

(** A call [to_formatted_text(value, style)] of the toolkit, kept as
    the text and the style it was given: one styled span. *)
Record FormattedText : Type :=
  to_formatted_text { value : string; style : string }.

(** [Label(merge_formatted_text(spans))]: the spans in their order. *)
Record Label : Type := mkLabel { label_text : list FormattedText }.

(** The loop of [ContentArea.get_label] over [contents.children], with
    the spans appended so far; [styles[style]] raises [KeyError] on a
    tag the dictionary does not have. *)
Fixpoint get_label_loop (nodes : list Node)
    (formated_content : list FormattedText)
    : result (list FormattedText) :=
  match nodes with
  | [] => Ok formated_content
  | node :: nodes' =>
      let text := node_text node in
      let style := tagname node in
      match styles !! style with
      | None => Raise (KeyError style)
      | Some s =>
          let formated_content :=
            formated_content ++ [to_formatted_text text s] in
          let formated_content :=
            if String.eqb (tagname node) "Paragraph"
            then formated_content
                   ++ [to_formatted_text (String newline EmptyString)
                         EmptyString]
            else formated_content in
          get_label_loop nodes' formated_content
      end
  end.

(** [ContentArea.get_label]. *)
Definition get_label (contents : BookSection) : result Label :=
  match get_label_loop (children contents) [] with
  | Ok formated_content => Ok (mkLabel formated_content)
  | Raise e => Raise e
  end.

(** The span appended after a paragraph. *)
Definition line_break : FormattedText :=
  to_formatted_text (String newline EmptyString) EmptyString.

(** The spans one pass of the loop appends for a node whose tag has the
    style [s] in the dictionary. *)
Definition node_spans (node : Node) (s : string) : list FormattedText :=
  to_formatted_text (node_text node) s
    :: (if String.eqb (tagname node) "Paragraph" then [line_break] else []).

(** The tag of a node is a key of [styles]. *)
Definition known (node : Node) : Prop := is_Some (styles !! tagname node).

(** The layout [TerminalUI] builds, as far as [render] reaches into it:
    the children of the content region, the third child of the first
    child of the root, each a box around a label. *)
Record Layout : Type := { content_children : list Label }.

(** [ContentArea.__init__]: the region first shows the welcome label. *)
Definition welcome : Label :=
  mkLabel [to_formatted_text "Welcome to Lira! :)" EmptyString].

(** [ContentArea.render]: the label is built first, the region is
    replaced after it. *)
Definition render (section : BookSection) : M Layout unit :=
  match get_label section with
  | Raise e => raise e
  | Ok label => modify (λ _, {| content_children := [label] |})
  end.

(** Sections rendered one after the other, each on the layout the one
    before left, whether it raised or not. *)
Definition render_each (sections : list BookSection) (layout : Layout)
    : Layout :=
  foldl (λ layout section, (render section layout).2) layout sections.

(** *** [class SidebarMenu] *)

(** The handler a button of the menu is given:
    [partial(self.select_section, section)] or [self.exit]. *)
Inductive Handler : Type :=
| partial_select_section (section : BookSection)
| exit.

(** The toolkit's [Button(text, handler=handler)]. *)
Record Button : Type := { button_text : string; button_handler : Handler }.

Module SidebarMenu.

Section SidebarMenu.

Context {World : Type}.

(** What the class reaches outside these sources: [book.chapters],
    [book.parse()] and [chapter.parse()]. *)
Variable chapters : Book → list BookChapter.
Variable parse_book : Book → M World unit.
Variable parse_chapter : BookChapter → M World unit.

Record t : Type := {
  chapter : BookChapter;
  items : list string;
  buttons : list Button
}.

(** [get_top_items]. *)
Definition get_top_items : list string := [].

(** [get_nested_items]. *)
Definition get_nested_items (chapter : BookChapter) : list string :=
  (λ '(section, _), options_title section) <$> toc chapter 1.

(** [select_section]. *)
Definition select_section (section : BookSection) : M Layout unit :=
  render section.

(** The loop of [get_buttons] over [enumerate(self.items)], with the
    buttons appended so far; [toc(depth=1)[i]] raises [IndexError] past
    the end of the table of contents. *)
Fixpoint get_buttons_loop (chapter : BookChapter)
    (entries : list (Z * string)) (buttons : list Button)
    : result (list Button) :=
  match entries with
  | [] => Ok buttons
  | (i, item) :: entries' =>
      match py_getitem (toc chapter 1) i with
      | None => Raise IndexError
      | Some (section, _) =>
          get_buttons_loop chapter entries'
            (buttons
               ++ [ {| button_text := pretty (i + 1) +:+ ". " +:+ item;
                       button_handler := partial_select_section section |} ])
      end
  end.

(** [get_buttons], on [self.chapter] and [self.items]. *)
Definition get_buttons (chapter : BookChapter) (items : list string)
    : result (list Button) :=
  match get_buttons_loop chapter (enumerate items) [] with
  | Raise e => Raise e
  | Ok buttons =>
      Ok (buttons ++ [ {| button_text := "Exit"; button_handler := exit |} ])
  end.

(** [__init__], on the books of [lira]. *)
Definition __init__ (books : list Book) : M World t :=
  match py_getitem books 0 with
  | None => raise IndexError
  | Some first_book =>
      bind (parse_book first_book) (λ _,
        match py_getitem (chapters first_book) 0 with
        | None => raise IndexError
        | Some chapter =>
            bind (parse_chapter chapter) (λ _,
              let items := get_nested_items chapter in
              match get_buttons chapter items with
              | Raise e => raise e
              | Ok buttons =>
                  ret {| chapter := chapter;
                         items := items;
                         buttons := buttons |}
              end)
        end)
  end.

End SidebarMenu.

Arguments t : clear implicits.

End SidebarMenu.

End ui.

(** ** Sample data *)

Module samples.

Import widgets.

(** A world that counts the calls made on it. *)
Definition tick : Callback nat := λ w, (Ok tt, S w).

(** A callback that raises. *)
Definition failing : Callback nat := λ w, (Raise (Exception "failed"), w).

Definition ticking (s : string) : ListElement nat :=
  {| text := s; on_select := Some tick; on_focus := Some tick |}.

(** The list ["A", "B", "C"] with the commit marker, as built. *)
Definition abc : List nat :=
  List__init__ None
    (Some [text_only "A"; text_only "B"; text_only "C"]) None true.

Definition abc_ticking : List nat :=
  List__init__ None (Some [ticking "A"; ticking "B"; ticking "C"]) None true.

Definition start (l : List nat) : Frame nat :=
  {| self := l; world := O; invoked := [] |}.

Definition mouse_up : MouseEvent :=
  {| position := mkPoint 0 1; event_type := MOUSE_UP |}.

(** A list whose second element has a callback that raises. *)
Definition abc_failing : List nat :=
  List__init__ None
    (Some [ticking "A";
           {| text := "B";
              on_select := Some failing;
              on_focus := Some failing |};
           ticking "C"])
    None true.

(** A section with a paragraph and a literal, and one with a node whose
    tag the style dictionary does not have. *)
Definition intro : BookSection :=
  {| options_title := "Introduction";
     children := [ {| tagname := "Paragraph"; node_text := "Hello." |};
                   {| tagname := "Literal"; node_text := "x = 1" |} ] |}.

Definition odd : BookSection :=
  {| options_title := "Odd";
     children := [ {| tagname := "Text"; node_text := "Before" |};
                   {| tagname := "Title"; node_text := "A title" |};
                   {| tagname := "Text"; node_text := "After" |} ] |}.

Definition basics : Book := {| metadata := {[ "title" := "Basics" ]} |}.

Definition first_steps : BookChapter :=
  {| book := basics;
     chapter_title := "First steps";
     toc := λ _, [(intro, 1); (odd, 1)] |}.


(** A stand-in for the format of the toolkit: as the XML parser does,
    it refuses an argument with a control character other than the
    tab, the line feed and the carriage return. *)
Definition xml_char (c : Ascii.ascii) : bool :=
  let n := Ascii.nat_of_ascii c in
  (32 <=? n)%nat || (n =? 9)%nat || (n =? 10)%nat || (n =? 13)%nat.

Fixpoint xml_text (s : string) : bool :=
  match s with
  | EmptyString => true
  | String c s' => xml_char c && xml_text s'
  end.

Definition sample_format (template : string) (args : list string)
    : result HTML :=
  if forallb xml_text args then Ok (HTML_format template args)
  else Raise (Exception "not well-formed (invalid token)").

(** A book whose title holds a vertical tab, and a chapter of it. *)
Definition garbled : Book :=
  {| metadata :=
       {[ "title" := "ctl" +:+ String (Ascii.ascii_of_nat 11) "char" ]} |}.

Definition garbled_chapter : BookChapter :=
  {| book := garbled;
     chapter_title := "Garbled";
     toc := λ _, [(intro, 1)] |}.

(** The content region as [ContentArea.__init__] leaves it. *)
Definition welcome_layout : ui.Layout :=
  {| ui.content_children := [ui.welcome] |}.

(** An empty list, as built. *)
Definition no_elements : List nat := List__init__ None None None true.

(** A world that records what was done to it, oldest first. *)
Definition logging (entry : string) : Callback (list string) :=
  λ w, (Ok tt, w ++ [entry]).

Definition log_render (section : BookSection) : Callback (list string) :=
  logging ("render " +:+ options_title section).

Definition log_parse_chapter (chapter : BookChapter)
    : Callback (list string) :=
  logging ("parse " +:+ chapter_title chapter).

Definition log_parse_book (book : Book) : Callback (list string) :=
  logging "parse book".

Definition log_set_title (title : string) : Callback (list string) :=
  logging ("title " +:+ title).

Definition log_push_sections (view : @ChapterSectionsList.t (list string))
    : Callback (list string) :=
  logging "push sections".

Definition log_push_chapters (view : BookChaptersList.t (list string))
    : Callback (list string) :=
  logging "push chapters".

(** A chapter without sections, and the chapters of the sample book. *)
Definition blank : BookChapter :=
  {| book := basics; chapter_title := "Blank"; toc := λ _, [] |}.

Definition chapters_of (book : Book) : list BookChapter :=
  [first_steps; blank].

(** A book without a title, and a chapter of it. *)
Definition untitled : Book := {| metadata := ∅ |}.

Definition lost : BookChapter :=
  {| book := untitled; chapter_title := "Lost"; toc := λ _, [(intro, 1)] |}.

(** A button twelve characters wide, the toolkit's default. *)
Definition ok_button : Button.t nat :=
  {| Button.text := "Ok"; Button.handler := Some tick; Button.width := 12 |}.

End samples.

(** * Properties *)

Import widgets.

(** ** Python indexing *)

Lemma py_getitem_in_range {A} (l : list A) (i : Z) :
  0 ≤ i < Z.of_nat (length l) → py_getitem l i = l !! Z.to_nat i.
Proof.
  intros [Hlo Hhi]. unfold py_getitem.
  destruct (Z.ltb_spec i 0) as [?|_]; [lia|].
  destruct (Z.ltb_spec i 0) as [?|_]; [lia|].
  destruct (Z.leb_spec (Z.of_nat (length l)) i) as [?|_]; [lia|].
  reflexivity.
Qed.

Lemma py_getitem_Some_range {A} (l : list A) (i : Z) (a : A) :
  py_getitem l i = Some a →
  - Z.of_nat (length l) ≤ i < Z.of_nat (length l).
Proof.
  unfold py_getitem.
  destruct (Z.ltb_spec i 0);
    match goal with
    | |- context [(?j <? 0) || _] => destruct (Z.ltb_spec j 0)
    end;
    match goal with
    | |- context [?n <=? ?j] => destruct (Z.leb_spec n j)
    end; simpl; intros; try discriminate; lia.
Qed.

Lemma py_getitem_above {A} (l : list A) (i : Z) :
  Z.of_nat (length l) ≤ i → py_getitem l i = None.
Proof.
  intros Hi. unfold py_getitem.
  destruct (Z.ltb_spec i 0) as [?|_]; [lia|].
  destruct (Z.ltb_spec i 0) as [?|_]; [lia|].
  destruct (Z.leb_spec (Z.of_nat (length l)) i) as [_|?]; [|lia].
  reflexivity.
Qed.

Lemma py_getitem_head {A} (a : A) (l : list A) :
  py_getitem (a :: l) 0 = Some a.
Proof. by rewrite py_getitem_in_range by (simpl; lia). Qed.

(** ** The runs of [select] and [focus] *)

Section ListRuns.

Context {World : Type}.
Implicit Types (s : Frame World) (l : List World) (i : Z).

(** [select] assigns, then looks the element up, then calls back. *)
Lemma select_run s i :
  select i s =
  match py_getitem (elements (self s)) i with
  | None =>
      (Raise IndexError,
       {| self := committed i (self s);
          world := world s;
          invoked := invoked s |})
  | Some element =>
      after_callback (on_select element) (committed i (self s)) s
  end.
Proof.
  unfold select, current_element, mbind, M_bind, bind, set_index,
    set_selected, set_cursor, modify, gets, ret, raise. simpl.
  destruct (py_getitem (elements (self s)) i) as [element|]; [|reflexivity].
  unfold after_callback, invoke. cbn.
  destruct (on_select element) as [f|]; cbn; [|reflexivity].
  destruct (f (world s)); reflexivity.
Qed.

Lemma focus_run s i :
  focus i s =
  match py_getitem (elements (self s)) i with
  | None =>
      (Raise IndexError,
       {| self := focused i (self s);
          world := world s;
          invoked := invoked s |})
  | Some element =>
      after_callback (on_focus element) (focused i (self s)) s
  end.
Proof.
  unfold focus, current_element, mbind, M_bind, bind, set_index,
    set_cursor, modify, gets, ret, raise. simpl.
  destruct (py_getitem (elements (self s)) i) as [element|]; [|reflexivity].
  unfold after_callback, invoke. cbn.
  destruct (on_focus element) as [f|]; cbn; [|reflexivity].
  destruct (f (world s)); reflexivity.
Qed.

Lemma after_callback_self (c : option (Callback World)) l s :
  self (after_callback c l s).2 = l.
Proof. destruct c; reflexivity. Qed.

Lemma after_callback_invoked (c : option (Callback World)) l s :
  invoked (after_callback c l s).2 = invoked s ++ callbacks c.
Proof. destruct c; simpl; [reflexivity|]. by rewrite app_nil_r. Qed.

(** Whatever the outcome, the list after [select i] is [committed i]. *)
Lemma select_self s i : self (select i s).2 = committed i (self s).
Proof.
  rewrite select_run. destruct (py_getitem _ _); [|reflexivity].
  apply after_callback_self.
Qed.

Lemma focus_self s i : self (focus i s).2 = focused i (self s).
Proof.
  rewrite focus_run. destruct (py_getitem _ _); [|reflexivity].
  apply after_callback_self.
Qed.

Lemma previous_self s :
  self (previous s).2 = focused (Z.max (index (self s) - 1) 0) (self s).
Proof. apply focus_self. Qed.

Lemma next_self s :
  self (next s).2 =
  focused
    (Z.min (index (self s) + 1) (Z.of_nat (length (elements (self s))) - 1))
    (self s).
Proof. apply focus_self. Qed.

End ListRuns.

(** ** Commit and focus *)

Section Commit.

Context {World : Type}.
Implicit Types (s : Frame World) (l : List World) (i : Z).

(** C1. For every list and every valid element index [i], [select i]
    (the commit) sets both the focus index and the committed index to
    [i] and invokes the [on_select] callback of element [i] exactly once:
    the log of invoked callbacks grows by that one callback, the world
    is the one the callback leaves and the outcome is the callback's.
    An element whose [on_select] is [None] has no callback, and none is
    invoked. *)
Theorem select_commits_and_calls_back_once s i :
  0 ≤ i < Z.of_nat (length (elements (self s))) →
  ∃ element,
    elements (self s) !! Z.to_nat i = Some element ∧
    index (self (select i s).2) = i ∧
    selected (self (select i s).2) = i ∧
    elements (self (select i s).2) = elements (self s) ∧
    invoked (select i s).2 = invoked s ++ callbacks (on_select element) ∧
    match on_select element with
    | Some f =>
        invoked (select i s).2 = invoked s ++ [f] ∧
        (select i s).1 = (f (world s)).1 ∧
        world (select i s).2 = (f (world s)).2
    | None =>
        invoked (select i s).2 = invoked s ∧
        (select i s).1 = Ok tt ∧
        world (select i s).2 = world s
    end.
Proof.
  intros Hi.
  destruct (lookup_lt_is_Some_2 (elements (self s)) (Z.to_nat i))
    as [element He]; [lia|].
  exists element. split; [exact He|].
  rewrite select_run, (py_getitem_in_range _ _ Hi), He.
  rewrite after_callback_self, after_callback_invoked.
  repeat split.
  destruct (on_select element) as [f|]; simpl; repeat split.
  apply app_nil_r.
Qed.

(** C2, as the code has it. [focus i] sets the focus index to [i] as
    given, without clamping, and the cursor to row [i]; the committed
    index and the elements stay. Where [i] is an index Python accepts,
    the [on_focus] callback of that element is invoked if present, once;
    elsewhere [IndexError] is raised and nothing is invoked. The focus
    index is within [0, len-1] after the call exactly when [i] is. The
    only bounds are those its callers compute: [previous] is the focus
    on [max (index - 1) 0] and [next] the focus on
    [min (index + 1) (len - 1)]. *)
Theorem focus_sets_index_unclamped s i :
  index (self (focus i s).2) = i ∧
  cursor (self (focus i s).2) = mkPoint 0 i ∧
  selected (self (focus i s).2) = selected (self s) ∧
  elements (self (focus i s).2) = elements (self s) ∧
  match py_getitem (elements (self s)) i with
  | Some element =>
      invoked (focus i s).2 = invoked s ++ callbacks (on_focus element)
  | None =>
      (focus i s).1 = Raise IndexError ∧ invoked (focus i s).2 = invoked s
  end ∧
  (0 ≤ index (self (focus i s).2)
       ≤ Z.of_nat (length (elements (self (focus i s).2))) - 1
   ↔ 0 ≤ i ≤ Z.of_nat (length (elements (self s))) - 1) ∧
  previous s = focus (Z.max (index (self s) - 1) 0) s ∧
  next s
  = focus (Z.min (index (self s) + 1)
                 (Z.of_nat (length (elements (self s))) - 1)) s.
Proof.
  rewrite focus_self. simpl. repeat split; try tauto.
  rewrite focus_run.
  destruct (py_getitem (elements (self s)) i) as [element|].
  - apply after_callback_invoked.
  - split; reflexivity.
Qed.

Lemma after_callback_failure (c : option (Callback World)) l s e :
  (after_callback c l s).1 = Raise e →
  ∃ f, c = Some f ∧
       (f (world s)).1 = Raise e ∧
       world (after_callback c l s).2 = (f (world s)).2 ∧
       invoked (after_callback c l s).2 = invoked s ++ [f].
Proof.
  destruct c as [f|]; simpl; [|discriminate].
  intros Hf. exists f. repeat split. exact Hf.
Qed.

(** C5, as the code has it. When [select i] or [focus i] raises, the
    elements and the commit-marker flag are as before the call, and the
    assignments made before the failure stay: the focus index is [i],
    the cursor is on row [i] and, for [select], the committed index is
    [i]; [focus] leaves the committed index as it was. The failure is
    the [IndexError] of the lookup or the exception of the callback. *)
Theorem failed_call_keeps_assignments s i (e : exception) :
  ((select i s).1 = Raise e →
     index (self (select i s).2) = i ∧
     selected (self (select i s).2) = i ∧
     cursor (self (select i s).2) = mkPoint 0 i ∧
     elements (self (select i s).2) = elements (self s) ∧
     allow_select (self (select i s).2) = allow_select (self s) ∧
     failure_of on_select s (select i s).2 i e) ∧
  ((focus i s).1 = Raise e →
     index (self (focus i s).2) = i ∧
     selected (self (focus i s).2) = selected (self s) ∧
     cursor (self (focus i s).2) = mkPoint 0 i ∧
     elements (self (focus i s).2) = elements (self s) ∧
     allow_select (self (focus i s).2) = allow_select (self s) ∧
     failure_of on_focus s (focus i s).2 i e).
Proof.
  unfold failure_of. split.
  - rewrite select_self, select_run.
    destruct (py_getitem (elements (self s)) i) as [element|]; simpl.
    + intros Hf. repeat split. by apply after_callback_failure.
    + intros [= <-]. repeat split.
  - rewrite focus_self, focus_run.
    destruct (py_getitem (elements (self s)) i) as [element|]; simpl.
    + intros Hf. repeat split. by apply after_callback_failure.
    + intros [= <-]. repeat split.
Qed.

(** C10. After [focus i], [select i], [previous] or [next], on any list,
    the cursor is at column 0 of the focused row. *)
Theorem cursor_tracks_focus s i :
  cursor (self (focus i s).2) = mkPoint 0 (index (self (focus i s).2)) ∧
  cursor (self (select i s).2) = mkPoint 0 (index (self (select i s).2)) ∧
  cursor (self (previous s).2) = mkPoint 0 (index (self (previous s).2)) ∧
  cursor (self (next s).2) = mkPoint 0 (index (self (next s).2)).
Proof.
  rewrite focus_self, select_self, previous_self, next_self.
  repeat split.
Qed.

End Commit.

(** ** Movement *)

Section Movement.

Context {World : Type}.
Implicit Types (s : Frame World) (l : List World) (i : Z).

Lemma next_index s :
  index (self (next s).2) =
  Z.min (index (self s) + 1) (Z.of_nat (length (elements (self s))) - 1).
Proof. by rewrite next_self. Qed.

Lemma next_elements s : elements (self (next s).2) = elements (self s).
Proof. by rewrite next_self. Qed.

(** [k] calls of [next] move a focus that is on a row [k] rows down, and
    stop on the last row. *)
Lemma call_times_next (k : nat) : ∀ s,
  0 ≤ index (self s) ≤ Z.of_nat (length (elements (self s))) - 1 →
  elements (self (call_times k next s)) = elements (self s) ∧
  index (self (call_times k next s)) =
  Z.min (index (self s) + Z.of_nat k)
        (Z.of_nat (length (elements (self s))) - 1).
Proof.
  induction k as [|k IH]; intros s Hs; simpl.
  - split; [reflexivity|lia].
  - destruct (IH (next s).2) as [Hel Hix].
    + rewrite next_index, next_elements. lia.
    + rewrite Hel, Hix, next_index, next_elements. split; [reflexivity|lia].
Qed.

(** C3. On a non-empty list of [N] elements with the focus on row 0,
    [next] called [N] times ends on row [N-1]; after any number [k] of
    calls the focus is on row [min k (N-1)], so never beyond the last
    row; and [previous] leaves a focus that is on row 0 on row 0. *)
Theorem movement_is_clamped s :
  elements (self s) ≠ [] →
  index (self s) = 0 →
  index (self (call_times (length (elements (self s))) next s))
    = Z.of_nat (length (elements (self s))) - 1 ∧
  (∀ k : nat,
     index (self (call_times k next s))
       = Z.min (Z.of_nat k) (Z.of_nat (length (elements (self s))) - 1) ∧
     index (self (call_times k next s))
       ≤ Z.of_nat (length (elements (self s))) - 1) ∧
  index (self (previous s).2) = index (self s).
Proof.
  intros Hne H0.
  assert (1 ≤ Z.of_nat (length (elements (self s)))) as HN.
  { destruct (elements (self s)); [done|]. simpl. lia. }
  assert (∀ k : nat,
            index (self (call_times k next s))
            = Z.min (Z.of_nat k) (Z.of_nat (length (elements (self s))) - 1))
    as Hk.
  { intros k. destruct (call_times_next k s) as [_ ->]; [lia|].
    by rewrite H0. }
  split; [rewrite Hk; lia|]. split.
  - intros k. rewrite Hk. lia.
  - rewrite previous_self, H0. reflexivity.
Qed.

End Movement.

(** ** The rendered rows and the mouse *)

Section Rows.

Context {World : Type}.
Implicit Types (s : Frame World) (l : List World) (i : Z).

Lemma enumerate_from_lookup {A} (es : list A) : ∀ (start : Z) (k : nat),
  enumerate_from start es !! k = (λ a, (start + Z.of_nat k, a)) <$> es !! k.
Proof.
  induction es as [|a es IH]; intros start k; [by destruct k|].
  destruct k as [|k]; simpl.
  - by rewrite Z.add_0_r.
  - rewrite IH. destruct (es !! k); simpl; [|reflexivity].
    do 2 f_equal. lia.
Qed.

Lemma enumerate_from_length {A} (es : list A) (start : Z) :
  length (enumerate_from start es) = length es.
Proof. revert start. induction es; intros; simpl; [|rewrite IHes]; done. Qed.

(** The fragment of row [k]. *)
Lemma get_text_lookup l (k : nat) (element : ListElement World) :
  elements l !! k = Some element →
  _get_text l !! k =
  Some (if Z.of_nat k =? index l
        then "class:list-item.focused" else EmptyString,
        (if Z.of_nat k <? Z.of_nat (length (elements l)) - 1
         then replace newline space (text element)
                +:+ String newline EmptyString
         else replace newline space (text element)),
        partial_mouse_select (Z.of_nat k)).
Proof.
  intros He. unfold _get_text, enumerate.
  rewrite list_lookup_fmap, enumerate_from_lookup, He.
  cbn [fmap option_fmap option_map]. by rewrite Z.add_0_l.
Qed.

Lemma get_text_length l : length (_get_text l) = length (elements l).
Proof.
  unfold _get_text, enumerate.
  by rewrite length_fmap, enumerate_from_length.
Qed.

Lemma count_char_append (c : Ascii.ascii) (a b : string) :
  count_char c (a +:+ b) = (count_char c a + count_char c b)%nat.
Proof. induction a as [|x a IH]; simpl; [reflexivity|]. rewrite IH. lia. Qed.

(** The text of an element is drawn without line separators. *)
Lemma count_char_replace (t : string) :
  count_char newline (replace newline space t) = O.
Proof.
  induction t as [|c t IH]; simpl; [reflexivity|]. rewrite IH.
  destruct (Ascii.eqb_spec c newline) as [->|Hc]; [reflexivity|].
  destruct (Ascii.eqb_spec c newline); [done|reflexivity].
Qed.

(** The rows numbered from [start] up to the last row [n-1]: each but
    the last ends in one line separator. *)
Lemma line_separators_rows (focus_row n : Z) (es : list (ListElement World)) :
  ∀ start : Z,
  es ≠ [] →
  start + Z.of_nat (length es) = n →
  S (line_separators
       ((λ '(i, element),
           let text := replace newline space (text element) in
           let style := EmptyString in
           let text :=
             if i <? n - 1 then text +:+ String newline EmptyString
             else text in
           let style :=
             if i =? focus_row then "class:list-item.focused" else style in
           (style, text, partial_mouse_select i))
        <$> enumerate_from start es))
  = length es.
Proof.
  unfold line_separators.
  induction es as [|element es IH]; intros start Hne Hn; [done|].
  assert (es = [] ∨ es ≠ []) as [->|Hes]
    by (destruct es; [left|right]; done).
  - simpl in *.
    destruct (Z.ltb_spec start (n - 1)); [lia|].
    by rewrite count_char_replace.
  - specialize (IH (start + 1) Hes ltac:(simpl in Hn; lia)).
    simpl in *. rewrite <- IH. f_equal.
    destruct (Z.ltb_spec start (n - 1));
      [|destruct es; [done|simpl in *; lia]].
    rewrite count_char_append, count_char_replace. reflexivity.
Qed.

(** C9. A list of [N] elements, [N ≥ 1], is drawn as [N] fragments, one
    an element in their order; together they hold exactly [N-1] line
    separators, and the fragment of a row is the element's text (line
    separators inside it replaced by spaces) followed by one line
    separator on every row but the last. *)
Theorem get_text_line_separators l :
  (1 ≤ length (elements l))%nat →
  length (_get_text l) = length (elements l) ∧
  line_separators (_get_text l) = (length (elements l) - 1)%nat ∧
  ∀ (k : nat) (element : ListElement World),
    elements l !! k = Some element →
    ∃ style,
      _get_text l !! k =
      Some (style,
            (if Z.of_nat k <? Z.of_nat (length (elements l)) - 1
             then replace newline space (text element)
                    +:+ String newline EmptyString
             else replace newline space (text element)),
            partial_mouse_select (Z.of_nat k)) ∧
      count_char newline (replace newline space (text element)) = O.
Proof.
  intros HN. split; [apply get_text_length|]. split.
  - pose proof (line_separators_rows (index l)
                  (Z.of_nat (length (elements l))) (elements l) 0) as H.
    unfold _get_text, enumerate.
    assert (elements l ≠ []) as Hne
      by (intros E; rewrite E in HN; simpl in HN; lia).
    specialize (H Hne (Z.add_0_l _)). cbv zeta in H. lia.
  - intros k element He. eexists. split.
    + by apply get_text_lookup.
    + apply count_char_replace.
Qed.








(** The handlers of [get_key_bindings] use these two toolkit functions. *)
Variable focus_next focus_previous : World → World.


End Rows.

(** ** The section-level list *)

Section SectionView.

Context {World : Type}.
Variable html_format : string → list string → result HTML.
Variable render_section : BookSection → Callback World.
Implicit Types (chapter : BookChapter) (w : World).

(** C6. Over a chapter whose table of contents (depth 1) has a first
    entry, every section-level list that [__init__] returns has the
    committed index 0 straight from its construction, with the focus and
    the cursor on row 0, the commit-marker column enabled (row 0 is
    drawn with the marker before its bullet) and the first section
    rendered through the element's callback; and [__init__] does return
    one whenever the book has a title, the toolkit accepts the title it
    is formatted into and rendering the first section does not raise. *)
Theorem section_view_commits_first chapter (idx : Z) w
    (section : BookSection) (depth : Z) (rest : list (BookSection * Z)) :
  document.toc chapter 1 = (section, depth) :: rest →
  (∀ (view : ChapterSectionsList.t) (w' : World),
     ChapterSectionsList.__init__ html_format render_section chapter idx w
       = (Ok view, w') →
     selected (ChapterSectionsList.container view) = 0 ∧
     index (ChapterSectionsList.container view) = 0 ∧
     cursor (ChapterSectionsList.container view) = mkPoint 0 0 ∧
     allow_select (ChapterSectionsList.container view) = true ∧
     elements (ChapterSectionsList.container view)
       = ChapterSectionsList._get_elements render_section
           (document.toc chapter 1) ∧
     _get_line_prefix (ChapterSectionsList.container view) 0 0
       = "• " +:+ ChapterSectionsList._get_bullet idx 0 ∧
     w' = (render_section section w).2) ∧
  (∀ (book_title : string) (title : HTML),
     metadata (book chapter) !! "title" = Some book_title →
     html_format
       "<title>{}</title> <separator>></separator> <title>{}</title>"
       [book_title; chapter_title chapter] = Ok title →
     (render_section section w).1 = Ok tt →
     ∃ view : ChapterSectionsList.t,
       ChapterSectionsList.__init__ html_format render_section chapter idx w
       = (Ok view, (render_section section w).2)).
Proof.
  intros Htoc.
  unfold ChapterSectionsList.__init__, ChapterSectionsList._get_title.
  destruct (metadata (book chapter) !! "title") as [book_title|].
  - destruct (html_format _ _) as [title|e0] eqn:Hformat.
    + rewrite select_run, Htoc. cbn -[py_getitem].
      rewrite py_getitem_head. cbn.
      unfold ChapterSectionsList._select.
      destruct (render_section section w) as [[[]|e] w1]; cbn.
      * split.
        -- intros view w' [= <- <-]. cbn. repeat split.
        -- intros _ _ _ _ _. eexists. reflexivity.
      * split; [intros view w' [=]|intros _ _ _ _ [=]].
    + split; [intros view w' [=]|].
      intros book_title' title' [= <-] Hf. rewrite Hformat in Hf.
      discriminate.
  - split; [intros view w' [=]|intros book_title title [=]].
Qed.

End SectionView.

(** ** The content renderer *)

Section Renderer.

Import ui.

Lemma styles_lookup_default : themes !! "default" = Some styles.
Proof. reflexivity. Qed.

(** The loop only appends. *)
Lemma get_label_loop_acc (nodes : list Node) : ∀ acc : list FormattedText,
  get_label_loop nodes acc =
  match get_label_loop nodes [] with
  | Ok spans => Ok (acc ++ spans)
  | Raise e => Raise e
  end.
Proof.
  induction nodes as [|node nodes IH]; intros acc; simpl.
  - by rewrite app_nil_r.
  - destruct (styles !! tagname node) as [s|]; [|reflexivity].
    destruct (String.eqb (tagname node) "Paragraph"); simpl.
    + rewrite (IH ((acc ++ _) ++ _)), (IH [_; _]).
      destruct (get_label_loop nodes []) as [spans|e]; [|reflexivity].
      by rewrite <- !app_assoc.
    + rewrite (IH (acc ++ _)), (IH [_]).
      destruct (get_label_loop nodes []) as [spans|e]; [|reflexivity].
      by rewrite <- !app_assoc.
Qed.

(** One pass of the loop, then the rest. *)
Lemma get_label_loop_cons (node : Node) (nodes : list Node) :
  get_label_loop (node :: nodes) [] =
  match styles !! tagname node with
  | None => Raise (KeyError (tagname node))
  | Some s =>
      match get_label_loop nodes [] with
      | Ok spans => Ok (node_spans node s ++ spans)
      | Raise e => Raise e
      end
  end.
Proof.
  simpl. destruct (styles !! tagname node) as [s|]; [|reflexivity].
  rewrite get_label_loop_acc. unfold node_spans, line_break.
  destruct (get_label_loop nodes []); [|reflexivity].
  by destruct (String.eqb (tagname node) "Paragraph").
Qed.

Lemma get_label_loop_app (pre post : list Node) :
  get_label_loop (pre ++ post) [] =
  match get_label_loop pre [] with
  | Ok before =>
      match get_label_loop post [] with
      | Ok after => Ok (before ++ after)
      | Raise e => Raise e
      end
  | Raise e => Raise e
  end.
Proof.
  induction pre as [|node pre IH].
  - simpl. by destruct (get_label_loop post []).
  - rewrite <- app_comm_cons, !get_label_loop_cons, IH.
    destruct (styles !! tagname node); [|reflexivity].
    destruct (get_label_loop pre []); [|reflexivity].
    destruct (get_label_loop post []); [|reflexivity].
    by rewrite app_assoc.
Qed.

(** With every tag in the dictionary the loop ends and gives each
    node's spans in the order of the nodes. *)
Lemma get_label_loop_known (nodes : list Node) :
  Forall known nodes →
  get_label_loop nodes [] =
  Ok (nodes ≫= λ node, node_spans node (styles !!! tagname node)).
Proof.
  induction 1 as [|node nodes [s Hs] _ IH]; [reflexivity|].
  rewrite get_label_loop_cons, IH, Hs. cbn.
  by rewrite (lookup_total_correct _ _ _ Hs).
Qed.

(** The first tag that is not in the dictionary stops the loop. *)
Lemma get_label_loop_unknown (pre post : list Node) (node : Node) :
  Forall known pre →
  styles !! tagname node = None →
  get_label_loop (pre ++ node :: post) [] = Raise (KeyError (tagname node)).
Proof.
  intros Hpre Hnode.
  rewrite get_label_loop_app, (get_label_loop_known _ Hpre).
  by rewrite get_label_loop_cons, Hnode.
Qed.

(** C4, as the code has it. A node whose tag is a key of the style
    dictionary gets the style the dictionary gives it, and with all tags
    so the label is built and [render] replaces the content region with
    it. There is no default style: the first node whose tag is not a key
    makes [get_label] raise [KeyError] on that tag, and [render] raises
    it with the content region left as it was. *)
Theorem get_label_styles_from_table (contents : BookSection)
    (layout : Layout) :
  (Forall known (children contents) →
   get_label contents =
     Ok (mkLabel (children contents ≫= λ node,
                    node_spans node (styles !!! tagname node))) ∧
   render contents layout =
     (Ok tt,
      {| content_children :=
           [mkLabel (children contents ≫= λ node,
                       node_spans node (styles !!! tagname node))] |})) ∧
  (∀ (pre post : list Node) (node : Node),
     children contents = pre ++ node :: post →
     Forall known pre →
     styles !! tagname node = None →
     get_label contents = Raise (KeyError (tagname node)) ∧
     render contents layout = (Raise (KeyError (tagname node)), layout)).
Proof.
  split.
  - intros Hall. unfold render, get_label.
    by rewrite (get_label_loop_known _ Hall).
  - intros pre post node Hch Hpre Hnode. unfold render, get_label.
    by rewrite Hch, (get_label_loop_unknown _ _ _ Hpre Hnode).
Qed.

(** C7. In the label of a section, the span of every paragraph node is
    followed at once by a line-break span: the spans are those of the
    nodes before it, the paragraph's span, the line break, then those of
    the nodes after it. A paragraph followed by a literal gives the
    three spans paragraph, line break, literal. *)
Theorem paragraph_followed_by_line_break (contents : BookSection)
    (pre post : list Node) (paragraph : Node) (label : Label) :
  children contents = pre ++ paragraph :: post →
  tagname paragraph = "Paragraph" →
  get_label contents = Ok label →
  (∃ before after : list FormattedText,
     get_label_loop pre [] = Ok before ∧
     get_label_loop post [] = Ok after ∧
     label_text label =
       before
         ++ [to_formatted_text (node_text paragraph) "#fff"; line_break]
         ++ after) ∧
  (∀ title p l : string,
     get_label
       {| options_title := title;
          children := [ {| tagname := "Paragraph"; node_text := p |};
                        {| tagname := "Literal"; node_text := l |} ] |}
     = Ok (mkLabel [ to_formatted_text p "#fff";
                     line_break;
                     to_formatted_text l "#fff" ])).
Proof.
  intros Hch Htag. unfold get_label. rewrite Hch, get_label_loop_app.
  rewrite get_label_loop_cons, Htag.
  change (styles !! "Paragraph") with (Some "#fff").
  destruct (get_label_loop pre []) as [before|]; [|discriminate].
  destruct (get_label_loop post []) as [after|]; [|discriminate].
  intros [= <-]. split; [|reflexivity].
  exists before, after. repeat split.
  unfold node_spans. by rewrite Htag.
Qed.

End Renderer.

(** ** The properties on the sample data *)

Section Samples.

Import samples.

(** C1 on the list of three elements with counting callbacks: committing
    row 1 sets both indices to 1 and calls the callback once. *)
Lemma select_commits_and_calls_back_once_witness :
  0 ≤ 1 < Z.of_nat (length (elements (self (start abc_ticking)))) ∧
  index (self (select 1 (start abc_ticking)).2) = 1 ∧
  selected (self (select 1 (start abc_ticking)).2) = 1 ∧
  invoked (select 1 (start abc_ticking)).2 = [tick].
Proof.
  assert (0 ≤ 1 < Z.of_nat (length (elements (self (start abc_ticking)))))
    as H by (simpl; lia).
  split; [exact H|].
  destruct (select_commits_and_calls_back_once (start abc_ticking) 1 H)
    as (element & He & Hi & Hs & _ & Hinv & _).
  split; [exact Hi|]. split; [exact Hs|].
  injection He as <-. exact Hinv.
Defined.

(** C2 as stated fails: on the list ["A", "B", "C"], [focus 5] leaves
    the focus index 5, outside [0, 2], and raises; [focus (-1)] returns
    with the focus index -1. *)
Lemma focus_does_not_clamp :
  elements (self (start abc)) ≠ [] ∧
  Z.of_nat (length (elements (self (start abc)))) = 3 ∧
  (focus 5 (start abc)).1 = Raise IndexError ∧
  index (self (focus 5 (start abc)).2) = 5 ∧
  ¬ (0 ≤ index (self (focus 5 (start abc)).2) ≤ 3 - 1) ∧
  (focus (-1) (start abc)).1 = Ok tt ∧
  index (self (focus (-1) (start abc)).2) = -1 ∧
  ¬ (0 ≤ index (self (focus (-1) (start abc)).2) ≤ 3 - 1).
Proof.
  repeat split; try done; simpl; lia.
Qed.

(** C3 on the list ["A", "B", "C"]: three calls of [next] from row 0 end
    on row 2, a fourth stays there, and [previous] stays on row 0. *)
Lemma movement_is_clamped_witness :
  elements (self (start abc)) ≠ [] ∧
  index (self (start abc)) = 0 ∧
  index (self (call_times 3 next (start abc))) = 2 ∧
  index (self (call_times 4 next (start abc))) ≤ 2 ∧
  index (self (previous (start abc)).2) = 0.
Proof.
  assert (elements (self (start abc)) ≠ []) as Hne by done.
  assert (index (self (start abc)) = 0) as H0 by reflexivity.
  destruct (movement_is_clamped (start abc) Hne H0) as (HN & Hk & Hp).
  split; [exact Hne|]. split; [exact H0|].
  split; [exact HN|]. split; [exact (proj2 (Hk 4%nat))|exact Hp].
Defined.

(** C4 as stated fails: the tag "Title" is not a key of the styles, and
    a section with such a node makes [get_label] and [render] raise
    [KeyError]; the content region is not replaced. *)
Lemma unknown_tag_raises :
  ui.styles !! "Title" = None ∧
  ui.get_label odd = Raise (KeyError "Title") ∧
  ui.render odd welcome_layout = (Raise (KeyError "Title"), welcome_layout).
Proof. repeat split. Qed.

(** C4 as the code has it, on the two sample sections. *)
Lemma get_label_styles_from_table_witness :
  Forall ui.known (children intro) ∧
  ui.get_label intro =
    Ok (ui.mkLabel [ ui.to_formatted_text "Hello." "#fff";
                     ui.line_break;
                     ui.to_formatted_text "x = 1" "#fff" ]) ∧
  ui.get_label odd = Raise (KeyError "Title").
Proof.
  assert (Forall ui.known (children intro)) as Hall
    by (repeat constructor; eexists; reflexivity).
  split; [exact Hall|]. split.
  - exact (proj1 (proj1 (get_label_styles_from_table intro welcome_layout)
                    Hall)).
  - refine (proj1 (proj2 (get_label_styles_from_table odd welcome_layout)
                     [ {| tagname := "Text"; node_text := "Before" |} ]
                     [ {| tagname := "Text"; node_text := "After" |} ]
                     {| tagname := "Title"; node_text := "A title" |}
                     eq_refl _ eq_refl)).
    repeat constructor. eexists; reflexivity.
Defined.

(** C5 as stated fails: on the list ["A", "B", "C"], fresh from its
    construction, [select 7] raises and leaves the focus index, the
    committed index and the cursor changed; so does [focus 7] for the
    focus index and the cursor; and so does [select 1] when the callback
    of row 1 raises. *)
Lemma failed_call_changes_state :
  index (self (start abc)) = 0 ∧
  selected (self (start abc)) = -1 ∧
  cursor (self (start abc)) = mkPoint 0 0 ∧
  (select 7 (start abc)).1 = Raise IndexError ∧
  index (self (select 7 (start abc)).2) = 7 ∧
  selected (self (select 7 (start abc)).2) = 7 ∧
  cursor (self (select 7 (start abc)).2) = mkPoint 0 7 ∧
  (focus 7 (start abc)).1 = Raise IndexError ∧
  index (self (focus 7 (start abc)).2) = 7 ∧
  cursor (self (focus 7 (start abc)).2) = mkPoint 0 7 ∧
  (select 1 (start abc_failing)).1 = Raise (Exception "failed") ∧
  index (self (start abc_failing)) = 0 ∧
  selected (self (start abc_failing)) = -1 ∧
  index (self (select 1 (start abc_failing)).2) = 1 ∧
  selected (self (select 1 (start abc_failing)).2) = 1.
Proof. repeat split. Qed.

(** C5 as the code has it, on the failing commit of row 7 and the
    failing focus on row 1 of the list whose second callback raises. *)
Lemma failed_call_keeps_assignments_witness :
  (select 7 (start abc)).1 = Raise IndexError ∧
  index (self (select 7 (start abc)).2) = 7 ∧
  selected (self (select 7 (start abc)).2) = 7 ∧
  (focus 1 (start abc_failing)).1 = Raise (Exception "failed") ∧
  index (self (focus 1 (start abc_failing)).2) = 1 ∧
  selected (self (focus 1 (start abc_failing)).2) = -1.
Proof.
  assert ((select 7 (start abc)).1 = Raise IndexError) as Hs by reflexivity.
  assert ((focus 1 (start abc_failing)).1 = Raise (Exception "failed"))
    as Hf by reflexivity.
  destruct (proj1 (failed_call_keeps_assignments (start abc) 7 IndexError) Hs)
    as (Hi & Hc & _).
  destruct (proj2 (failed_call_keeps_assignments (start abc_failing) 1
                     (Exception "failed")) Hf)
    as (Hi' & Hc' & _).
  split; [exact Hs|]. split; [exact Hi|]. split; [exact Hc|].
  split; [exact Hf|]. split; [exact Hi'|exact Hc'].
Defined.

(** C6 on the sample chapter, with [ui.render] as the renderer and the
    welcome layout as the world: the list is built, its committed index
    is 0 and the content region shows the first section. *)
Lemma section_view_commits_first_witness :
  document.toc first_steps 1 = [(intro, 1); (odd, 1)] ∧
  ∃ view : ChapterSectionsList.t,
    ChapterSectionsList.__init__ sample_format ui.render first_steps 0
      welcome_layout
      = (Ok view, (ui.render intro welcome_layout).2) ∧
    selected (ChapterSectionsList.container view) = 0 ∧
    allow_select (ChapterSectionsList.container view) = true.
Proof.
  assert (document.toc first_steps 1 = (intro, 1) :: [(odd, 1)])
    as Htoc by reflexivity.
  split; [exact Htoc|].
  destruct (section_view_commits_first sample_format ui.render first_steps 0
              welcome_layout intro 1 [(odd, 1)] Htoc) as [Hany Hsome].
  destruct (Hsome "Basics" _ eq_refl eq_refl eq_refl) as [view Hview].
  exists view. split; [exact Hview|].
  destruct (Hany view _ Hview) as (Hc & _ & _ & Ha & _).
  split; [exact Hc|exact Ha].
Defined.

(** C7 on the sample section: paragraph, line break, literal. *)
Lemma paragraph_followed_by_line_break_witness :
  ui.get_label intro =
    Ok (ui.mkLabel [ ui.to_formatted_text "Hello." "#fff";
                     ui.line_break;
                     ui.to_formatted_text "x = 1" "#fff" ]) ∧
  ∃ before after : list ui.FormattedText,
    ui.get_label_loop [] [] = Ok before ∧
    ui.get_label_loop [ {| tagname := "Literal"; node_text := "x = 1" |} ] []
      = Ok after ∧
    [ ui.to_formatted_text "Hello." "#fff";
      ui.line_break;
      ui.to_formatted_text "x = 1" "#fff" ]
    = before ++ [ui.to_formatted_text "Hello." "#fff"; ui.line_break]
        ++ after.
Proof.
  assert (ui.get_label intro =
            Ok (ui.mkLabel [ ui.to_formatted_text "Hello." "#fff";
                             ui.line_break;
                             ui.to_formatted_text "x = 1" "#fff" ]))
    as Hlabel by reflexivity.
  split; [exact Hlabel|].
  exact (proj1 (paragraph_followed_by_line_break intro []
                  [ {| tagname := "Literal"; node_text := "x = 1" |} ]
                  {| tagname := "Paragraph"; node_text := "Hello." |}
                  _ eq_refl eq_refl Hlabel)).
Defined.



(** C9 on the list ["A", "B", "C"]: three fragments, two line
    separators. *)
Lemma get_text_line_separators_witness :
  (1 ≤ length (elements abc))%nat ∧
  length (_get_text abc) = 3%nat ∧
  line_separators (_get_text abc) = 2%nat.
Proof.
  assert (1 ≤ length (elements abc))%nat as HN by (simpl; lia).
  destruct (get_text_line_separators abc HN) as (Hlen & Hsep & _).
  split; [exact HN|]. split; [exact Hlen|exact Hsep].
Defined.

End Samples.

(** * Further properties of the list widget *)

Section ListInputs.

Context {World : Type}.
Variable focus_next focus_previous : World → World.
Implicit Types (s : Frame World) (l : List World) (i : Z).

Lemma committed_in_shape l i :
  0 ≤ i < Z.of_nat (length (elements l)) → in_shape (committed i l).
Proof. intros Hi. unfold in_shape. simpl. auto. Qed.

Lemma focused_in_shape l i :
  in_shape l →
  0 ≤ i < Z.of_nat (length (elements l)) → in_shape (focused i l).
Proof. intros (_ & Hsel & _) Hi. unfold in_shape. simpl. auto. Qed.

(** A mouse event over a row is the [mouse_select] of that row, and
    nothing where no row is drawn. *)
Lemma mouse_handler_run s (row : nat) (mouse_event : MouseEvent) :
  mouse_handler row mouse_event s =
  if decide (row < length (elements (self s)))%nat
  then mouse_select (Z.of_nat row) mouse_event s
  else (Ok tt, s).
Proof.
  unfold mouse_handler, mbind, M_bind, bind, gets. simpl.
  destruct (decide (row < length (elements (self s)))%nat) as [Hrow|Hrow].
  - destruct (lookup_lt_is_Some_2 _ _ Hrow) as [element He].
    by rewrite (get_text_lookup _ _ _ He).
  - rewrite (lookup_ge_None_2 (_get_text (self s)) row); [reflexivity|].
    rewrite get_text_length. lia.
Qed.

(** On a list in shape every handler is one of: nothing, a toolkit call
    on the world, a commit of a row, a focus on a row. *)
Lemma handle_cases s (input : Input) :
  in_shape (self s) →
  handle focus_next focus_previous input s = (Ok tt, s) ∨
  (∃ f : World → World,
     handle focus_next focus_previous input s = toolkit f s) ∨
  (∃ i, 0 ≤ i < Z.of_nat (length (elements (self s))) ∧
        (handle focus_next focus_previous input s = select i s ∨
         handle focus_next focus_previous input s = focus i s)).
Proof.
  intros (Hix & _ & _).
  destruct input as [key|row mouse_event]; simpl.
  - destruct key; simpl;
      unfold previous, next, mbind, M_bind, bind, gets; simpl.
    + right; right. eexists. split; [|right; reflexivity]. lia.
    + destruct (index (self s) <=? 0).
      * right; left. by eexists.
      * right; right. eexists. split; [|right; reflexivity]. lia.
    + right; right. eexists. split; [|right; reflexivity]. lia.
    + destruct (Z.of_nat (length (elements (self s))) - 1 <=? index (self s)).
      * right; left. by eexists.
      * right; right. eexists. split; [|right; reflexivity]. lia.
    + right; right. eexists. split; [|left; reflexivity]. lia.
    + right; right. eexists. split; [|left; reflexivity]. lia.
  - rewrite mouse_handler_run.
    destruct (decide _) as [Hrow|_]; [|by left].
    unfold mouse_select.
    destruct (event_type mouse_event); try by left.
    right; right. eexists. split; [|left; reflexivity]. lia.
Qed.

Lemma handle_in_shape s (input : Input) :
  in_shape (self s) →
  in_shape (self (handle focus_next focus_previous input s).2) ∧
  elements (self (handle focus_next focus_previous input s).2)
    = elements (self s) ∧
  allow_select (self (handle focus_next focus_previous input s).2)
    = allow_select (self s).
Proof.
  intros Hs.
  destruct (handle_cases s input Hs)
    as [->|[[f ->]|(i & Hi & [->| ->])]]; simpl; auto.
  - rewrite select_self. simpl. auto using committed_in_shape.
  - rewrite focus_self. simpl. auto using focused_in_shape.
Qed.

(** X1. A list in the shape its constructor gives a non-empty list
    stays in that shape under any sequence of key presses and mouse
    events: the focus index is a row, the committed index is -1 or a
    row, the cursor is on the focused row; the elements and the
    commit-marker flag never change. *)
Theorem inputs_keep_shape (inputs : list Input) : ∀ s,
  in_shape (self s) →
  in_shape (self (handle_all focus_next focus_previous inputs s)) ∧
  elements (self (handle_all focus_next focus_previous inputs s))
    = elements (self s) ∧
  allow_select (self (handle_all focus_next focus_previous inputs s))
    = allow_select (self s).
Proof.
  induction inputs as [|input inputs IH]; intros s Hs; simpl; [auto|].
  destruct (handle_in_shape s input Hs) as (Hs' & Hel & Hal).
  destruct (IH _ Hs') as (Hs'' & Hel' & Hal').
  rewrite Hel', Hal'. auto.
Qed.

(** X2. On a list in shape a handler never fails on the lookup of the
    element: when the handling of a key or of a mouse event raises, the
    exception is the one a callback of an element of the list raised on
    the world. A list whose elements have no callbacks never raises. *)
Theorem handlers_fail_only_in_callbacks s (input : Input)
    (e : exception) :
  in_shape (self s) →
  (handle focus_next focus_previous input s).1 = Raise e →
  ∃ (element : ListElement World) (f : Callback World),
    element ∈ elements (self s) ∧
    (on_select element = Some f ∨ on_focus element = Some f) ∧
    (f (world s)).1 = Raise e.
Proof.
  intros Hs.
  destruct (handle_cases s input Hs)
    as [->|[[f ->]|(i & Hi & [->| ->])]]; simpl; try discriminate.
  - rewrite select_run, (py_getitem_in_range _ _ Hi).
    destruct (lookup_lt_is_Some_2 (elements (self s)) (Z.to_nat i))
      as [element He]; [lia|]. rewrite He.
    intros Hf. apply after_callback_failure in Hf as (f & Hf & He' & _).
    exists element, f. split; [|auto].
    eapply list_elem_of_lookup_2, He.
  - rewrite focus_run, (py_getitem_in_range _ _ Hi).
    destruct (lookup_lt_is_Some_2 (elements (self s)) (Z.to_nat i))
      as [element He]; [lia|]. rewrite He.
    intros Hf. apply after_callback_failure in Hf as (f & Hf & He' & _).
    exists element, f. split; [|auto].
    eapply list_elem_of_lookup_2, He.
Qed.

End ListInputs.

Section ControlDispatch.

Context {World : Type}.
Implicit Types (s : Frame World) (l : List World) (i : Z).

Lemma get_text_of_rows l : Forall (of_a_row l) (_get_text l).
Proof.
  apply Forall_lookup_2. intros k fragment Hk.
  assert (k < length (elements l))%nat as Hlt.
  { rewrite <- get_text_length. by eapply lookup_lt_Some. }
  destruct (lookup_lt_is_Some_2 _ _ Hlt) as [element He].
  rewrite (get_text_lookup _ _ _ He) in Hk. injection Hk as <-.
  by exists k.
Qed.

Lemma yield_parts_of_rows l (style : string) (h : MouseHandler)
    (parts : list string) :
  ∀ line : list (string * string * MouseHandler),
  of_a_row l (style, EmptyString, h) →
  Forall (of_a_row l) line →
  Forall (Forall (of_a_row l)) (yield_parts style h parts line).1 ∧
  Forall (of_a_row l) (yield_parts style h parts line).2.
Proof.
  induction parts as [|part parts IH]; intros line Hh Hline; simpl.
  - by split.
  - destruct (IH [] Hh ltac:(constructor)) as [Hlines Hrest].
    destruct (yield_parts style h parts []) as [lines line'].
    simpl in *. split; [|exact Hrest].
    constructor; [|exact Hlines].
    apply Forall_app. split; [exact Hline|]. by repeat constructor.
Qed.

Lemma split_lines_from_of_rows l
    (fragments : list (string * string * MouseHandler)) :
  ∀ line : list (string * string * MouseHandler),
  Forall (of_a_row l) fragments →
  Forall (of_a_row l) line →
  Forall (Forall (of_a_row l)) (split_lines_from fragments line).
Proof.
  induction fragments as [|[[style t] h] fragments IH];
    intros line Hfragments Hline; simpl.
  - by repeat constructor.
  - apply Forall_cons_1 in Hfragments as [Hh Hfragments].
    destruct (yield_parts_of_rows l style h
                (take (length (split_char newline t) - 1)
                   (split_char newline t)) line Hh Hline)
      as [Hlines Hrest].
    destruct (yield_parts style h _ line) as [lines line'].
    simpl in *. apply Forall_app. split; [exact Hlines|].
    apply IH; [exact Hfragments|].
    apply Forall_app. split; [exact Hrest|]. by repeat constructor.
Qed.

Lemma find_handler_of_rows l
    (line : list (string * string * MouseHandler)) :
  ∀ (count : nat) (xpos : Z) (h : MouseHandler),
  Forall (of_a_row l) line →
  find_handler line count xpos = Some h →
  ∃ row : nat,
    (row < length (elements l))%nat ∧ h = partial_mouse_select (Z.of_nat row).
Proof.
  induction line as [|[[style t] h'] line IH]; intros count xpos h Hline;
    simpl; [discriminate|].
  apply Forall_cons_1 in Hline as [(row & Hrow & Hh) Hline].
  destruct (xpos <? Z.of_nat (count + py_len t)).
  - intros [= <-]. by exists row.
  - by apply IH.
Qed.

(** X25. Whatever the position of a mouse event, the dispatch of the
    toolkit over the fragments of the list calls no handler and changes
    nothing, or it calls the [mouse_select] of one row of the list: it
    never calls a handler with an index that is not a row. So a list in
    the shape its constructor gives it stays in that shape under the
    dispatch, with its elements unchanged. *)
Theorem control_dispatch_calls_a_row s (mouse_event : MouseEvent) :
  (control_mouse_handler mouse_event s = (Ok NotImplemented, s) ∨
   ∃ row : nat,
     (row < length (elements (self s)))%nat ∧
     control_mouse_handler mouse_event s
     = (match (mouse_select (Z.of_nat row) mouse_event s).1 with
        | Ok _ => Ok Done
        | Raise e => Raise e
        end,
        (mouse_select (Z.of_nat row) mouse_event s).2)) ∧
  (in_shape (self s) →
   in_shape (self (control_mouse_handler mouse_event s).2) ∧
   elements (self (control_mouse_handler mouse_event s).2)
   = elements (self s)).
Proof.
  assert (control_mouse_handler mouse_event s = (Ok NotImplemented, s) ∨
          ∃ row : nat,
            (row < length (elements (self s)))%nat ∧
            control_mouse_handler mouse_event s
            = (match (mouse_select (Z.of_nat row) mouse_event s).1 with
               | Ok _ => Ok Done
               | Raise e => Raise e
               end,
               (mouse_select (Z.of_nat row) mouse_event s).2)) as Hcases.
  { unfold control_mouse_handler, mbind, M_bind, bind, gets. cbn [fst snd].
    pose proof (get_text_of_rows (self s)) as Hrows.
    destruct (_get_text (self s)) as [|fragment fragments]; [by left|].
    destruct (py_getitem _ _) as [line|] eqn:Hline; [|by left].
    destruct (find_handler line 0 _) as [h|] eqn:Hh; [|by left].
    right.
    assert (Forall (of_a_row (self s)) line) as Hl.
    { unfold py_getitem in Hline.
      destruct (_ || _); [discriminate|].
      eapply Forall_lookup_1; [|exact Hline].
      apply split_lines_from_of_rows; [exact Hrows|constructor]. }
    destruct (find_handler_of_rows _ _ _ _ _ Hl Hh) as (row & Hrow & ->).
    exists row. split; [exact Hrow|].
    unfold call_handler, ret.
    by destruct (mouse_select (Z.of_nat row) mouse_event s)
      as [[[]|e] s']. }
  split; [exact Hcases|].
  intros Hs. destruct Hcases as [->|(row & Hrow & ->)]; [by split|].
  cbn [snd].
  pose proof (handle_in_shape id id s (MouseOver row mouse_event) Hs)
    as (Hs' & Hel & _).
  simpl in Hs', Hel. rewrite mouse_handler_run in Hs', Hel.
  destruct (decide _) as [_|?]; [|lia]. by split.
Qed.

End ControlDispatch.

Section ListEdges.

Context {World : Type}.
Variable focus_next focus_previous : World → World.
Implicit Types (s : Frame World) (l : List World) (i : Z).

Lemma next_run s :
  next s =
  focus (Z.min (index (self s) + 1)
               (Z.of_nat (length (elements (self s))) - 1)) s.
Proof. reflexivity. Qed.

Lemma previous_run s : previous s = focus (Z.max (index (self s) - 1) 0) s.
Proof. reflexivity. Qed.

(** Before the last row the key Tab is the key Down. *)
Lemma tab_before_last s :
  index (self s) < Z.of_nat (length (elements (self s))) - 1 →
  handle focus_next focus_previous (KeyPress Tab) s = next s.
Proof.
  intros Hix. simpl. unfold mbind, M_bind, bind, gets. simpl.
  by destruct (Z.leb_spec (Z.of_nat (length (elements (self s))) - 1)
                 (index (self s))); [lia|].
Qed.

Lemma tab_on_last s :
  Z.of_nat (length (elements (self s))) - 1 ≤ index (self s) →
  handle focus_next focus_previous (KeyPress Tab) s = toolkit focus_next s.
Proof.
  intros Hix. simpl. unfold mbind, M_bind, bind, gets. simpl.
  by destruct (Z.leb_spec (Z.of_nat (length (elements (self s))) - 1)
                 (index (self s))); [|lia].
Qed.

Lemma backtab_on_first s :
  index (self s) ≤ 0 →
  handle focus_next focus_previous (KeyPress BackTab) s
  = toolkit focus_previous s.
Proof.
  intros Hix. simpl. unfold mbind, M_bind, bind, gets. simpl.
  by destruct (Z.leb_spec (index (self s)) 0); [|lia].
Qed.

Lemma tabs_are_nexts (k : nat) : ∀ s,
  0 ≤ index (self s) →
  index (self s) + Z.of_nat k ≤ Z.of_nat (length (elements (self s))) - 1 →
  handle_all focus_next focus_previous (replicate k (KeyPress Tab)) s
  = call_times k next s.
Proof.
  induction k as [|k IH]; intros s H0 Hk; [reflexivity|].
  cbn [replicate handle_all call_times].
  rewrite tab_before_last by lia.
  apply IH; rewrite ?next_index, ?next_elements; lia.
Qed.

(** X3. On a non-empty list of [N] elements with the focus on row 0,
    the key Tab moves the focus like the key Down for [N-1] presses,
    which put the focus on the last row; the next press of Tab leaves
    the list as it is, invokes no callback and hands the keyboard focus
    to the next region. The key BackTab on row 0 does the same towards
    the previous region. *)
Theorem tab_walks_then_leaves s :
  elements (self s) ≠ [] →
  index (self s) = 0 →
  (∀ k : nat,
     (k ≤ length (elements (self s)) - 1)%nat →
     handle_all focus_next focus_previous (replicate k (KeyPress Tab)) s
     = call_times k next s) ∧
  index (self (call_times (length (elements (self s)) - 1) next s))
    = Z.of_nat (length (elements (self s))) - 1 ∧
  handle focus_next focus_previous (KeyPress Tab)
    (call_times (length (elements (self s)) - 1) next s)
  = (Ok tt,
     {| self := self (call_times (length (elements (self s)) - 1) next s);
        world :=
          focus_next
            (world (call_times (length (elements (self s)) - 1) next s));
        invoked :=
          invoked (call_times (length (elements (self s)) - 1) next s) |}) ∧
  handle focus_next focus_previous (KeyPress BackTab) s
  = (Ok tt,
     {| self := self s;
        world := focus_previous (world s);
        invoked := invoked s |}).
Proof.
  intros Hne H0.
  assert (1 ≤ Z.of_nat (length (elements (self s)))) as HN.
  { destruct (elements (self s)); [done|]. simpl. lia. }
  destruct (call_times_next (length (elements (self s)) - 1) s)
    as [Hel Hix]; [lia|].
  split; [|split; [|split]].
  - intros k Hk. apply tabs_are_nexts; lia.
  - rewrite Hix. lia.
  - rewrite tab_on_last; [reflexivity|]. rewrite Hel, Hix. lia.
  - rewrite backtab_on_first; [reflexivity|lia].
Qed.

(** X4. An empty list, as its constructor leaves it, cannot be moved in
    or committed: the keys Up, Down, Space and Enter raise [IndexError]
    without touching the world, Down leaving the focus index -1 and
    Enter the committed index 0; the keys Tab and BackTab do not raise
    and hand the keyboard focus over; a mouse event does nothing; and no
    fragment is drawn. *)
Theorem empty_list_behaviour s :
  elements (self s) = [] →
  index (self s) = 0 →
  _get_text (self s) = [] ∧
  (∀ i, select i s
        = (Raise IndexError,
           {| self := committed i (self s);
              world := world s;
              invoked := invoked s |}) ∧
        focus i s
        = (Raise IndexError,
           {| self := focused i (self s);
              world := world s;
              invoked := invoked s |})) ∧
  handle focus_next focus_previous (KeyPress Up) s = focus 0 s ∧
  handle focus_next focus_previous (KeyPress Down) s = focus (-1) s ∧
  handle focus_next focus_previous (KeyPress Enter) s = select 0 s ∧
  handle focus_next focus_previous (KeyPress Space) s = select 0 s ∧
  handle focus_next focus_previous (KeyPress Tab) s
    = toolkit focus_next s ∧
  handle focus_next focus_previous (KeyPress BackTab) s
    = toolkit focus_previous s ∧
  (∀ (row : nat) (mouse_event : MouseEvent),
     handle focus_next focus_previous (MouseOver row mouse_event) s
     = (Ok tt, s)).
Proof.
  intros Hel H0.
  assert (∀ i, py_getitem (elements (self s)) i = None) as Hnone.
  { intros i. rewrite Hel.
    destruct (py_getitem [] i) as [element|] eqn:E; [|reflexivity].
    apply py_getitem_Some_range in E. simpl in E. lia. }
  split; [unfold _get_text; by rewrite Hel|].
  split; [intros i; by rewrite select_run, focus_run, Hnone|].
  split; [simpl; by rewrite previous_run, H0|].
  split; [simpl; by rewrite next_run, H0, Hel|].
  split; [simpl; unfold mbind, M_bind, bind, gets; simpl; by rewrite H0|].
  split; [simpl; unfold mbind, M_bind, bind, gets; simpl; by rewrite H0|].
  split; [apply tab_on_last; rewrite Hel, H0; simpl; lia|].
  split; [apply backtab_on_first; lia|].
  intros row mouse_event. simpl. rewrite mouse_handler_run.
  destruct (decide _) as [Hrow|_]; [|reflexivity].
  rewrite Hel in Hrow. simpl in Hrow. lia.
Qed.

Lemma previous_index s :
  index (self (previous s).2) = Z.max (index (self s) - 1) 0.
Proof. by rewrite previous_self. Qed.

Lemma previous_elements s :
  elements (self (previous s).2) = elements (self s).
Proof. by rewrite previous_self. Qed.

Lemma call_times_previous (k : nat) : ∀ s,
  0 ≤ index (self s) →
  elements (self (call_times k previous s)) = elements (self s) ∧
  index (self (call_times k previous s))
  = Z.max (index (self s) - Z.of_nat k) 0.
Proof.
  induction k as [|k IH]; intros s Hs; simpl.
  - split; [reflexivity|lia].
  - destruct (IH (previous s).2) as [Hel Hix].
    + rewrite previous_index. lia.
    + rewrite Hel, Hix, previous_index, previous_elements.
      split; [reflexivity|lia].
Qed.

(** X24. From any row [i] of a list of [N] elements, [k] presses of
    Down put the focus on row [min (i + k) (N - 1)] and [k] presses of
    Up on row [max (i - k) 0]: the focus never leaves the list, and
    enough presses reach the end rows from anywhere. *)
Theorem movement_from_any_row s (k : nat) :
  0 ≤ index (self s) < Z.of_nat (length (elements (self s))) →
  index (self (call_times k next s))
    = Z.min (index (self s) + Z.of_nat k)
        (Z.of_nat (length (elements (self s))) - 1) ∧
  index (self (call_times k previous s))
    = Z.max (index (self s) - Z.of_nat k) 0 ∧
  0 ≤ index (self (call_times k next s))
    < Z.of_nat (length (elements (self s))) ∧
  0 ≤ index (self (call_times k previous s))
    < Z.of_nat (length (elements (self s))).
Proof.
  intros Hix.
  destruct (call_times_next k s) as [_ Hn]; [lia|].
  destruct (call_times_previous k s) as [_ Hp]; [lia|].
  rewrite Hn, Hp. lia.
Qed.

(** X5. Away from the ends the keys Up and Down undo each other: Down
    then Up returns the focus to its row unless it was on the last row,
    and Up then Down returns it unless it was on the first row. *)
Theorem previous_undoes_next s :
  0 ≤ index (self s) < Z.of_nat (length (elements (self s))) →
  (index (self s) < Z.of_nat (length (elements (self s))) - 1 →
   self (previous (next s).2).2 = self (focus (index (self s)) s).2) ∧
  (0 < index (self s) →
   self (next (previous s).2).2 = self (focus (index (self s)) s).2) ∧
  (index (self s) = Z.of_nat (length (elements (self s))) - 1 →
   index (self (previous (next s).2).2) = Z.max (index (self s) - 1) 0) ∧
  (index (self s) = 0 →
   index (self (next (previous s).2).2)
   = Z.min 1 (Z.of_nat (length (elements (self s))) - 1)).
Proof.
  intros Hix.
  repeat first
    [rewrite previous_self | rewrite next_self | rewrite focus_self].
  repeat split; intros H.
  - change (focused ?i (focused ?j ?l)) with (focused i l).
    f_equal. cbn [index elements focused]. lia.
  - change (focused ?i (focused ?j ?l)) with (focused i l).
    f_equal. cbn [index elements focused]. lia.
  - cbn [index elements focused]. lia.
  - cbn [index elements focused]. lia.
Qed.


(** X7. A mouse event that is not a release, or one below the last
    row, changes nothing and calls nothing. *)
Theorem other_mouse_events_do_nothing s (row : nat)
    (mouse_event : MouseEvent) :
  event_type mouse_event ≠ MOUSE_UP
    ∨ (length (elements (self s)) ≤ row)%nat →
  mouse_handler row mouse_event s = (Ok tt, s).
Proof.
  intros Hcase. rewrite mouse_handler_run.
  destruct (decide _) as [Hrow|_]; [|reflexivity].
  destruct Hcase as [Hup|?]; [|lia].
  unfold mouse_select. by destruct (event_type mouse_event).
Qed.

End ListEdges.

Section ListDrawing.

Context {World : Type}.
Implicit Types (s : Frame World) (l : List World) (i : Z).

Lemma py_len_append (a b : string) :
  py_len (a +:+ b) = (py_len a + py_len b)%nat.
Proof.
  induction a as [|c a IH]; simpl; [reflexivity|]. rewrite IH.
  by destruct (Z.land (Z.of_nat (Ascii.nat_of_ascii c)) 192 =? 128).
Qed.

Lemma py_len_spaces (n : nat) : py_len (repeat_char space n) = n.
Proof. induction n as [|n IH]; simpl; [reflexivity|]. by rewrite IH. Qed.

(** The prefix of a first line: the marker column, if any, then the
    bullet. *)
Lemma get_line_prefix_first l (line : Z) :
  _get_line_prefix l line 0 =
  (if allow_select l
   then if selected l =? line then "• " else "  "
   else EmptyString) +:+ bullet_of l line.
Proof.
  unfold _get_line_prefix, bullet_of. simpl.
  destruct (allow_select l); [|reflexivity].
  by destruct (selected l =? line).
Qed.

(** X8. The prefix of a wrapped continuation line is blank and exactly
    as many characters wide as the prefix of the first line of its row;
    and on every row the prefix is the bullet preceded, when the commit
    marker is enabled, by a column two characters wide, whether the row
    is the committed one or not: the texts of all rows with bullets of
    one width start in the same column. *)
Theorem line_prefix_alignment l (line wrap_count : Z) :
  py_len (_get_line_prefix l line wrap_count)
    = py_len (_get_line_prefix l line 0) ∧
  py_len (_get_line_prefix l line 0)
    = ((if allow_select l then 2 else 0) + py_len (bullet_of l line))%nat ∧
  (wrap_count ≠ 0 →
   _get_line_prefix l line wrap_count
   = repeat_char space (py_len (_get_line_prefix l line 0))).
Proof.
  assert (wrap_count ≠ 0 →
          _get_line_prefix l line wrap_count
          = repeat_char space (py_len (_get_line_prefix l line 0))) as Hwrap.
  { intros Hw. unfold _get_line_prefix.
    destruct (Z.eqb_spec wrap_count 0); [done|]. reflexivity. }
  split; [|split; [|exact Hwrap]].
  - destruct (decide (wrap_count = 0)) as [->|Hw]; [reflexivity|].
    by rewrite (Hwrap Hw), py_len_spaces.
  - rewrite get_line_prefix_first, py_len_append.
    destruct (allow_select l); [|reflexivity].
    by destruct (selected l =? line).
Qed.

(** X9. After the commit of row [i] the prefix of a row carries the
    commit marker exactly on row [i], and two blanks on every other row
    (with the marker column disabled, the bullet alone); moving the
    focus does not move the marker; and a list on which nothing was
    committed shows the marker on no row. *)
Theorem commit_marker_follows_commit s i (line wrap_count : Z) :
  _get_line_prefix (self (select i s).2) line 0
    = (if allow_select (self s)
       then if i =? line then "• " else "  "
       else EmptyString) +:+ bullet_of (self s) line ∧
  _get_line_prefix (self (focus i s).2) line wrap_count
    = _get_line_prefix (self s) line wrap_count ∧
  (selected (self s) = -1 → 0 ≤ line →
   _get_line_prefix (self s) line 0
   = (if allow_select (self s) then "  " else EmptyString)
       +:+ bullet_of (self s) line).
Proof.
  rewrite select_self, focus_self. split; [|split].
  - by rewrite get_line_prefix_first.
  - reflexivity.
  - intros Hsel Hline. rewrite get_line_prefix_first, Hsel.
    destruct (allow_select (self s)); [|reflexivity].
    by destruct (Z.eqb_spec (-1) line); [lia|].
Qed.

(** The fragments with the focused style among the rows numbered from
    [start]: one when the focused row is among them, none otherwise. *)
Lemma focused_rows_count (focus_row n : Z) (es : list (ListElement World)) :
  ∀ start : Z,
  length
    (filter (λ fragment : string * string * MouseHandler,
               fragment.1.1 = "class:list-item.focused")
       ((λ '(i, element),
           (if i =? focus_row then "class:list-item.focused" else EmptyString,
            if i <? n - 1
            then replace newline space (text element)
                   +:+ String newline EmptyString
            else replace newline space (text element),
            partial_mouse_select i))
        <$> enumerate_from start es))
  = if decide (start ≤ focus_row < start + Z.of_nat (length es))
    then 1%nat else 0%nat.
Proof.
  induction es as [|element es IH]; intros start.
  - simpl. by destruct (decide _); [lia|].
  - cbn [enumerate_from]. rewrite fmap_cons, filter_cons.
    destruct (decide _) as [Hp|Hp]; cbn [length fst snd] in *;
      rewrite IH; clear IH;
      destruct (Z.eqb_spec start focus_row) as [Heq|Hne]; try done;
      destruct (decide (start + 1 ≤ focus_row < _)) as [H1|H1];
      destruct (decide (start ≤ focus_row < _)) as [H2|H2];
      try reflexivity; simpl length in *; lia.
Qed.

Lemma focused_fragments_length l :
  length (focused_fragments l)
  = if decide (0 ≤ index l < Z.of_nat (length (elements l)))
    then 1%nat else 0%nat.
Proof.
  unfold focused_fragments, _get_text, enumerate.
  rewrite (focused_rows_count (index l)
             (Z.of_nat (length (elements l))) (elements l) 0).
  destruct (decide (0 ≤ index l < 0 + _)) as [H1|H1];
    destruct (decide (0 ≤ index l < _)) as [H2|H2];
    try reflexivity; lia.
Qed.

(** X10. Exactly one fragment is drawn with the style of the focused
    row when the focus index is a row of the list, and it is the
    fragment of that row; when the focus index is not a row (a negative
    index, or one past the end) no fragment is. *)
Theorem one_focused_fragment l :
  length (focused_fragments l)
    = (if decide (0 ≤ index l < Z.of_nat (length (elements l)))
       then 1%nat else 0%nat) ∧
  ∀ (k : nat) (element : ListElement World),
    elements l !! k = Some element →
    ∃ t : string,
      _get_text l !! k
      = Some (if Z.of_nat k =? index l
              then "class:list-item.focused" else EmptyString,
              t, partial_mouse_select (Z.of_nat k)).
Proof.
  split; [apply focused_fragments_length|].
  intros k element He. eexists. by apply get_text_lookup.
Qed.

Lemma py_getitem_negative {A} (es : list A) i :
  - Z.of_nat (length es) ≤ i < 0 →
  py_getitem es i = es !! Z.to_nat (i + Z.of_nat (length es)).
Proof.
  intros Hi. unfold py_getitem.
  destruct (Z.ltb_spec i 0) as [_|?]; [|lia].
  destruct (Z.ltb_spec (i + Z.of_nat (length es)) 0) as [?|_]; [lia|].
  destruct (Z.leb_spec (Z.of_nat (length es)) (i + Z.of_nat (length es)))
    as [?|_]; [lia|].
  reflexivity.
Qed.

(** X23. A negative index counts from the end for the lookup only:
    [select i] with [-N ≤ i < 0] on a list of [N] elements invokes the
    [on_select] callback of element [N + i], but leaves the focus index
    and the committed index [i] itself, so that afterwards no fragment
    is drawn focused and no row carries the commit marker. *)
Theorem negative_index_commit s i :
  - Z.of_nat (length (elements (self s))) ≤ i < 0 →
  ∃ element : ListElement World,
    elements (self s)
      !! Z.to_nat (i + Z.of_nat (length (elements (self s))))
    = Some element ∧
    invoked (select i s).2 = invoked s ++ callbacks (on_select element) ∧
    index (self (select i s).2) = i ∧
    selected (self (select i s).2) = i ∧
    focused_fragments (self (select i s).2) = [] ∧
    ∀ line : Z,
      0 ≤ line →
      _get_line_prefix (self (select i s).2) line 0
      = (if allow_select (self s) then "  " else EmptyString)
          +:+ bullet_of (self s) line.
Proof.
  intros Hi.
  destruct (lookup_lt_is_Some_2 (elements (self s))
              (Z.to_nat (i + Z.of_nat (length (elements (self s))))))
    as [element He]; [lia|].
  exists element. split; [exact He|].
  rewrite select_run, (py_getitem_negative _ _ Hi), He.
  rewrite after_callback_self, after_callback_invoked.
  split; [reflexivity|]. split; [reflexivity|]. split; [reflexivity|].
  split.
  - apply length_zero_iff_nil. rewrite focused_fragments_length.
    simpl. by destruct (decide _); [lia|].
  - intros line Hline. rewrite get_line_prefix_first. simpl.
    destruct (allow_select (self s)); [|reflexivity].
    by destruct (Z.eqb_spec i line); [lia|].
Qed.

End ListDrawing.

(** * The button *)

Section ButtonLabel.

Context {World : Type}.
Implicit Types (b : Button.t World).

Lemma py_len_padded (left right : nat) (t : string) :
  py_len (repeat_char space left +:+ t +:+ repeat_char space right)
  = (left + py_len t + right)%nat.
Proof. rewrite !py_len_append, !py_len_spaces. lia. Qed.

(** X11. A button at least two characters wide is drawn as four
    fragments: the bracket, the cursor mark, the label and the bracket.
    The label is the text between blanks, as many on the right as on
    the left or one more, filling the width less two; a text wider than
    that is drawn whole, never cut. Only the cursor mark has no mouse
    handler. A button narrower than two characters cannot be drawn: the
    format raises. *)
Theorem button_label_is_centred b :
  (2 ≤ Button.width b →
   ∃ left right : nat,
     Button._get_text_fragments b
     = Ok [ ("class:button.arrow", "[", Some Button.handler_closure);
            ("[SetCursorPosition]", EmptyString, None);
            ("class:button.text",
             repeat_char space left +:+ Button.text b
               +:+ repeat_char space right,
             Some Button.handler_closure);
            ("class:button.arrow", "]", Some Button.handler_closure) ] ∧
     (left ≤ right ≤ left + 1)%nat ∧
     py_len (repeat_char space left +:+ Button.text b
               +:+ repeat_char space right)
     = Nat.max (Z.to_nat (Button.width b - 2)) (py_len (Button.text b))) ∧
  (Button.width b < 2 →
   Button._get_text_fragments b
   = Raise (Exception "Sign not allowed in string format specifier")).
Proof.
  unfold Button._get_text_fragments, Button.format_center. split.
  - intros Hw. destruct (Z.ltb_spec (Button.width b - 2) 0); [lia|].
    eexists _, _. split; [reflexivity|].
    rewrite py_len_padded.
    pose proof (Nat.div_mod_eq
                  (Z.to_nat (Button.width b - 2) - py_len (Button.text b)) 2).
    pose proof (Nat.mod_upper_bound
                  (Z.to_nat (Button.width b - 2) - py_len (Button.text b)) 2).
    lia.
  - intros Hw. by destruct (Z.ltb_spec (Button.width b - 2) 0); [|lia].
Qed.

End ButtonLabel.

(** * The lists of sections, chapters and books *)

Section SectionViewEdges.

Context {World : Type}.
Variable html_format : string → list string → result HTML.
Variable render_section : BookSection → Callback World.
Implicit Types (chapter : BookChapter) (w : World).

(** The ways the constructor ends. *)
Lemma sections_init_run chapter (idx : Z) w :
  ChapterSectionsList.__init__ html_format render_section chapter idx w =
  match ChapterSectionsList._get_title html_format chapter with
  | Raise e => (Raise e, w)
  | Ok title =>
      match document.toc chapter 1 with
      | [] => (Raise IndexError, w)
      | (section, _) :: _ =>
          match (render_section section w).1 with
          | Raise e => (Raise e, (render_section section w).2)
          | Ok _ =>
              (Ok {| ChapterSectionsList.index := idx;
                     ChapterSectionsList.chapter := chapter;
                     ChapterSectionsList.toc := document.toc chapter 1;
                     ChapterSectionsList.container :=
                       committed 0
                         (List__init__ (Some title)
                            (Some
                               (ChapterSectionsList._get_elements
                                  render_section (document.toc chapter 1)))
                            (Some (ChapterSectionsList._get_bullet idx))
                            ChapterSectionsList.allow_select) |},
               (render_section section w).2)
          end
      end
  end.
Proof.
  unfold ChapterSectionsList.__init__.
  destruct (ChapterSectionsList._get_title html_format chapter)
    as [title|e]; [|reflexivity].
  cbv zeta. rewrite select_run.
  destruct (document.toc chapter 1) as [|[section depth] rest] eqn:Htoc.
  - reflexivity.
  - cbn -[py_getitem]. rewrite py_getitem_head. cbn.
    unfold ChapterSectionsList._select.
    by destruct (render_section section w) as [[[]|e] w1].
Qed.

(** X12. The constructor of the list of sections fails in this order:
    a book without a title raises [KeyError]; a title that the toolkit
    does not accept when it is formatted raises what the toolkit
    raises; with the title formatted, a chapter whose table of contents
    is empty raises [IndexError] on the selection of the first item;
    and when rendering the first section raises, the constructor raises
    the same. The first three leave the world untouched, nothing being
    rendered, and none returns a list. *)
Theorem section_view_failures chapter (idx : Z) w :
  (metadata (book chapter) !! "title" = None →
   ChapterSectionsList.__init__ html_format render_section chapter idx w
   = (Raise (KeyError "title"), w)) ∧
  (∀ (book_title : string) (e : exception),
     metadata (book chapter) !! "title" = Some book_title →
     html_format
       "<title>{}</title> <separator>></separator> <title>{}</title>"
       [book_title; chapter_title chapter] = Raise e →
     ChapterSectionsList.__init__ html_format render_section chapter idx w
     = (Raise e, w)) ∧
  (∀ (book_title : string) (title : HTML),
     metadata (book chapter) !! "title" = Some book_title →
     html_format
       "<title>{}</title> <separator>></separator> <title>{}</title>"
       [book_title; chapter_title chapter] = Ok title →
     document.toc chapter 1 = [] →
     ChapterSectionsList.__init__ html_format render_section chapter idx w
     = (Raise IndexError, w)) ∧
  (∀ (book_title : string) (title : HTML) (section : BookSection)
     (depth : Z) (rest : list (BookSection * Z)) (e : exception),
     metadata (book chapter) !! "title" = Some book_title →
     html_format
       "<title>{}</title> <separator>></separator> <title>{}</title>"
       [book_title; chapter_title chapter] = Ok title →
     document.toc chapter 1 = (section, depth) :: rest →
     (render_section section w).1 = Raise e →
     ChapterSectionsList.__init__ html_format render_section chapter idx w
     = (Raise e, (render_section section w).2)).
Proof.
  rewrite sections_init_run. unfold ChapterSectionsList._get_title.
  split; [|split; [|split]].
  - by intros ->.
  - by intros book_title e -> ->.
  - by intros book_title title -> -> ->.
  - intros book_title title section depth rest e -> -> -> ->. reflexivity.
Qed.

(** Every list of sections the constructor returns. *)
Lemma sections_init_Ok chapter (idx : Z) w
    (view : ChapterSectionsList.t) (w' : World) :
  ChapterSectionsList.__init__ html_format render_section chapter idx w
    = (Ok view, w') →
  ChapterSectionsList.index view = idx ∧
  ChapterSectionsList.chapter view = chapter ∧
  selected (ChapterSectionsList.container view) = 0 ∧
  index (ChapterSectionsList.container view) = 0 ∧
  allow_select (ChapterSectionsList.container view) = true ∧
  elements (ChapterSectionsList.container view)
  = ChapterSectionsList._get_elements render_section (document.toc chapter 1).
Proof.
  rewrite sections_init_run.
  destruct (ChapterSectionsList._get_title html_format chapter);
    [|discriminate].
  destruct (document.toc chapter 1) as [|[section depth] rest];
    [discriminate|].
  destruct (render_section section w).1; [|discriminate].
  intros [= <- <-]. repeat split.
Qed.

(** X13. A list of sections has one element for each entry of the
    table of contents, in its order and under the title of the section;
    committing row [k] of it, by key or by mouse, renders the section
    of entry [k] and no other: the outcome and the world are those of
    rendering that section, and the committed index becomes [k]. *)
Theorem section_view_commit_renders chapter (idx : Z) w
    (view : ChapterSectionsList.t) (w' : World) :
  ChapterSectionsList.__init__ html_format render_section chapter idx w
    = (Ok view, w') →
  text <$> elements (ChapterSectionsList.container view)
    = (λ entry, options_title entry.1) <$> document.toc chapter 1 ∧
  ∀ (k : nat) (section : BookSection) (depth : Z)
    (s : Frame World),
    self s = ChapterSectionsList.container view →
    document.toc chapter 1 !! k = Some (section, depth) →
    (select (Z.of_nat k) s).1 = (render_section section (world s)).1 ∧
    world (select (Z.of_nat k) s).2 = (render_section section (world s)).2 ∧
    invoked (select (Z.of_nat k) s).2
      = invoked s ++ [render_section section] ∧
    selected (self (select (Z.of_nat k) s).2) = Z.of_nat k.
Proof.
  intros Hview.
  destruct (sections_init_Ok _ _ _ _ _ Hview) as (_ & _ & _ & _ & _ & Hel).
  split.
  - rewrite Hel. unfold ChapterSectionsList._get_elements.
    rewrite <- list_fmap_compose. apply list_fmap_ext.
    by intros _ [section depth] _.
  - intros k section depth s Hs Hk.
    rewrite select_self, select_run, Hs, Hel.
    rewrite py_getitem_in_range.
    + rewrite Nat2Z.id. unfold ChapterSectionsList._get_elements.
      rewrite list_lookup_fmap, Hk. simpl. repeat split.
    + unfold ChapterSectionsList._get_elements. rewrite length_fmap.
      apply lookup_lt_Some in Hk. lia.
Qed.

End SectionViewEdges.

Section ChapterView.

Context {World : Type}.
Variable html_format : string → list string → result HTML.
Variable chapters : Book → list BookChapter.
Variable parse : BookChapter → Callback World.
Variable render_section : BookSection → Callback World.
Variable push : @ChapterSectionsList.t World → Callback World.
Implicit Types (w : World) (s : Frame World).

(** The element the loop appends for a chapter. *)
Lemma chapters_loop_Ok (entries : list (Z * BookChapter)) :
  ∀ (acc : list (ListElement World)) w (els : list (ListElement World))
    (w' : World),
  BookChaptersList._get_elements_loop html_format parse render_section
    push
    entries acc w = (Ok els, w') →
  els = acc ++
        ((λ entry : Z * BookChapter,
            {| text := chapter_title entry.2;
               on_select :=
                 Some (BookChaptersList._select html_format render_section
                         push entry.2 entry.1);
               on_focus := None |}) <$> entries).
Proof.
  induction entries as [|[i chapter] entries IH]; intros acc w els w'.
  - simpl. unfold ret. intros [= <- <-]. by rewrite app_nil_r.
  - simpl. unfold bind at 1.
    destruct (parse chapter w) as [[[]|e] w1]; [|discriminate].
    intros H. apply IH in H. by rewrite <- app_assoc in H.
Qed.

Lemma chapters_loop_total (entries : list (Z * BookChapter)) :
  (∀ chapter w, (parse chapter w).1 = Ok tt) →
  ∀ (acc : list (ListElement World)) w,
  ∃ (els : list (ListElement World)) (w' : World),
    BookChaptersList._get_elements_loop html_format parse render_section
    push
      entries acc w = (Ok els, w').
Proof.
  intros Hparse.
  induction entries as [|[i chapter] entries IH]; intros acc w.
  - by eexists _, _.
  - simpl. unfold bind at 1. specialize (Hparse chapter w).
    destruct (parse chapter w) as [[[]|e] w1]; [|discriminate].
    apply IH.
Qed.

(** Every list of chapters the constructor returns. *)
Lemma chapters_init_Ok (book : Book) w
    (view : BookChaptersList.t World) (w' : World) :
  BookChaptersList.__init__ html_format chapters parse render_section push
    book w
    = (Ok view, w') →
  BookChaptersList.book view = book ∧
  index (BookChaptersList.container view) = 0 ∧
  selected (BookChaptersList.container view) = -1 ∧
  allow_select (BookChaptersList.container view) = false ∧
  text <$> elements (BookChaptersList.container view)
    = chapter_title <$> chapters book ∧
  ∀ (k : nat) (chapter : BookChapter),
    chapters book !! k = Some chapter →
    elements (BookChaptersList.container view) !! k
    = Some {| text := chapter_title chapter;
              on_select :=
                Some (BookChaptersList._select html_format render_section
                        push chapter (Z.of_nat k));
              on_focus := None |}.
Proof.
  unfold BookChaptersList.__init__, BookChaptersList._get_title,
    BookChaptersList._get_elements.
  destruct (metadata book !! "title") as [book_title|]; [|discriminate].
  destruct (html_format _ _) as [title|]; [|discriminate].
  unfold bind.
  destruct (BookChaptersList._get_elements_loop _ _ _ _ _ _ _)
    as [[els|e] w1] eqn:Hloop; [|discriminate].
  apply chapters_loop_Ok in Hloop. simpl in Hloop. subst els.
  intros [= <- <-]. simpl. repeat split.
  - rewrite <- list_fmap_compose. unfold enumerate.
    apply list_eq. intros k.
    rewrite !list_lookup_fmap, enumerate_from_lookup.
    by destruct (chapters book !! k).
  - intros k chapter Hk. unfold enumerate.
    rewrite list_lookup_fmap, enumerate_from_lookup, Hk. simpl.
    by rewrite Z.add_0_l.
Qed.

(** X14. Every list of chapters the constructor returns has one element
    for each chapter of the book, in order, under the chapter's title
    and with the drill-down into that chapter as its callback; the
    focus is on row 0, nothing is committed and the marker column is
    off. It is returned whenever the book has a title that the toolkit
    accepts when it is formatted and no chapter fails to parse, also
    for a book without chapters. A book without a title raises
    [KeyError], and a title the toolkit does not accept raises what the
    toolkit raises, both before any chapter is parsed. *)
Theorem chapters_view_built (book : Book) w :
  (∀ (view : BookChaptersList.t World) (w' : World),
     BookChaptersList.__init__ html_format chapters parse render_section
       push book w = (Ok view, w') →
     BookChaptersList.book view = book ∧
     index (BookChaptersList.container view) = 0 ∧
     selected (BookChaptersList.container view) = -1 ∧
     allow_select (BookChaptersList.container view) = false ∧
     text <$> elements (BookChaptersList.container view)
       = chapter_title <$> chapters book ∧
     ∀ (k : nat) (chapter : BookChapter),
       chapters book !! k = Some chapter →
       elements (BookChaptersList.container view) !! k
       = Some {| text := chapter_title chapter;
                 on_select :=
                   Some (BookChaptersList._select html_format
                           render_section push chapter (Z.of_nat k));
                 on_focus := None |}) ∧
  (metadata book !! "title" = None →
   BookChaptersList.__init__ html_format chapters parse render_section
     push book w = (Raise (KeyError "title"), w)) ∧
  (∀ (book_title : string) (e : exception),
     metadata book !! "title" = Some book_title →
     html_format "<title>{}</title>" [book_title] = Raise e →
     BookChaptersList.__init__ html_format chapters parse render_section
       push book w = (Raise e, w)) ∧
  (∀ (book_title : string) (title : HTML),
     metadata book !! "title" = Some book_title →
     html_format "<title>{}</title>" [book_title] = Ok title →
     (∀ chapter w, (parse chapter w).1 = Ok tt) →
     ∃ (view : BookChaptersList.t World) (w' : World),
       BookChaptersList.__init__ html_format chapters parse render_section
         push book w = (Ok view, w')).
Proof.
  split; [|split; [|split]].
  - intros view w'. apply chapters_init_Ok.
  - unfold BookChaptersList.__init__, BookChaptersList._get_title.
    by intros ->.
  - unfold BookChaptersList.__init__, BookChaptersList._get_title.
    by intros book_title e -> ->.
  - unfold BookChaptersList.__init__, BookChaptersList._get_title,
      BookChaptersList._get_elements.
    intros book_title title -> -> Hparse. unfold bind.
    destruct (chapters_loop_total (enumerate (chapters book)) Hparse [] w)
      as (els & w' & ->).
    by eexists _, _.
Qed.

(** X15. Committing the row of a chapter in a list of chapters records
    the row as committed and builds the list of sections of that
    chapter, numbered with the row; when that list is built it is
    pushed, with its first section committed and rendered; when
    building it fails (a chapter without sections, a section that does
    not render) the exception is raised and nothing is pushed. *)
Theorem chapter_commit_pushes (book : Book) w
    (view : BookChaptersList.t World) (w' : World) (k : nat)
    (chapter : BookChapter) s :
  BookChaptersList.__init__ html_format chapters parse render_section push
    book w
    = (Ok view, w') →
  chapters book !! k = Some chapter →
  self s = BookChaptersList.container view →
  selected (self (select (Z.of_nat k) s).2) = Z.of_nat k ∧
  match ChapterSectionsList.__init__ html_format render_section chapter
          (Z.of_nat k)
          (world s) with
  | (Ok sections, w1) =>
      (select (Z.of_nat k) s).1 = (push sections w1).1 ∧
      world (select (Z.of_nat k) s).2 = (push sections w1).2 ∧
      ChapterSectionsList.index sections = Z.of_nat k ∧
      selected (ChapterSectionsList.container sections) = 0
  | (Raise e, w1) =>
      (select (Z.of_nat k) s).1 = Raise e ∧
      world (select (Z.of_nat k) s).2 = w1
  end.
Proof.
  intros Hview Hk Hs.
  destruct (chapters_init_Ok book w view w' Hview)
    as (_ & _ & _ & _ & Htexts & Hels).
  split; [by rewrite select_self|].
  rewrite select_run, Hs, py_getitem_in_range.
  - rewrite Nat2Z.id, (Hels k chapter Hk). simpl.
    unfold BookChaptersList._select, bind.
    destruct (ChapterSectionsList.__init__ _ _ _ _ _)
      as [[sections|e] w1] eqn:Hinit; [|by split].
    apply sections_init_Ok in Hinit as (Hidx & _ & Hsel & _).
    by repeat split.
  - apply lookup_lt_Some in Hk.
    assert (length (elements (BookChaptersList.container view))
            = length (chapters book)) as ->.
    { by rewrite <- (length_fmap text), Htexts, length_fmap. }
    lia.
Qed.

End ChapterView.

Section BookView.

Context {World : Type}.
Variable html_format : string → list string → result HTML.
Variable parse : Book → Callback World.
Variable set_title : string → Callback World.
Variable push : BookChaptersList.t World → Callback World.
Variable chapters : Book → list BookChapter.
Variable parse_chapter : BookChapter → Callback World.
Variable render_section : BookSection → Callback World.
Variable push_sections : @ChapterSectionsList.t World → Callback World.
Implicit Types (w : World) (s : Frame World).

Local Abbreviation books_init :=
  (BooksList.__init__ html_format parse set_title push chapters
     parse_chapter render_section push_sections).
Local Abbreviation books_select :=
  (BooksList.select html_format set_title push chapters parse_chapter
     render_section push_sections).

Lemma books_loop_Ok (entries : list (Z * Book)) :
  ∀ (acc : list (ListElement World)) w (els : list (ListElement World))
    (w' : World),
  BooksList._get_elements_loop html_format parse set_title push chapters
    parse_chapter render_section push_sections entries acc w
  = (Ok els, w') →
  Forall (λ entry, is_Some (metadata entry.2 !! "title")) entries ∧
  els = acc ++
        ((λ entry : Z * Book,
            {| text := default EmptyString (metadata entry.2 !! "title");
               on_select := Some (books_select entry.2 entry.1);
               on_focus := None |}) <$> entries).
Proof.
  induction entries as [|[i book] entries IH]; intros acc w els w'.
  - simpl. unfold ret. intros [= <- <-]. by rewrite app_nil_r.
  - cbn [BooksList._get_elements_loop]. unfold bind at 1.
    destruct (parse book w) as [[[]|e] w1]; [|discriminate].
    destruct (metadata book !! "title") as [title|] eqn:Ht;
      [|discriminate].
    intros H. apply IH in H as [Hall ->]. split.
    + constructor; [cbn [fst snd]; rewrite Ht; by eexists|exact Hall].
    + rewrite fmap_cons. cbn [fst snd]. rewrite Ht.
      by rewrite <- app_assoc.
Qed.

Lemma books_loop_total (entries : list (Z * Book)) :
  (∀ book w, (parse book w).1 = Ok tt) →
  Forall (λ entry, is_Some (metadata entry.2 !! "title")) entries →
  ∀ (acc : list (ListElement World)) w,
  ∃ (els : list (ListElement World)) (w' : World),
    BooksList._get_elements_loop html_format parse set_title push chapters
      parse_chapter render_section push_sections entries acc w
    = (Ok els, w').
Proof.
  intros Hparse Hall.
  induction Hall as [|[i book] entries [title Ht] _ IH]; intros acc w.
  - by eexists _, _.
  - simpl in *. unfold bind at 1. specialize (Hparse book w).
    destruct (parse book w) as [[[]|e] w1]; [|discriminate].
    rewrite Ht. apply IH.
Qed.

Lemma enumerate_from_snd {A} (l : list A) (start : Z) :
  snd <$> enumerate_from start l = l.
Proof.
  revert start. induction l as [|a l IH]; intros start; simpl;
    [|rewrite IH]; reflexivity.
Qed.

(** Every list of books the constructor returns. *)
Lemma books_init_Ok (books : list Book) w
    (view : BooksList.t World) (w' : World) :
  books_init books w = (Ok view, w') →
  Forall (λ book, is_Some (metadata book !! "title")) books ∧
  index (BooksList.container view) = 0 ∧
  selected (BooksList.container view) = -1 ∧
  allow_select (BooksList.container view) = false ∧
  Some <$> (text <$> elements (BooksList.container view))
    = (λ book, metadata book !! "title") <$> books ∧
  ∀ (k : nat) (book : Book),
    books !! k = Some book →
    elements (BooksList.container view) !! k
    = Some {| text := default EmptyString (metadata book !! "title");
              on_select := Some (books_select book (Z.of_nat k));
              on_focus := None |}.
Proof.
  unfold BooksList.__init__, BooksList._get_elements, bind.
  destruct (BooksList._get_elements_loop _ _ _ _ _ _ _ _ _ _ _)
    as [[els|e] w1] eqn:Hloop; [|discriminate].
  apply books_loop_Ok in Hloop as [Hall ->].
  intros [= <- <-]. simpl.
  assert (Forall (λ book, is_Some (metadata book !! "title")) books)
    as Hbooks.
  { rewrite <- (enumerate_from_snd books 0). by apply Forall_fmap. }
  repeat split; [exact Hbooks| |].
  - rewrite <- !list_fmap_compose. unfold enumerate.
    apply list_eq. intros k.
    rewrite !list_lookup_fmap, enumerate_from_lookup.
    destruct (books !! k) as [book|] eqn:Hk; [|reflexivity]. simpl.
    assert (is_Some (metadata book !! "title")) as [title ->]; [|done].
    exact (Forall_lookup_1 _ _ _ _ Hbooks Hk).
  - intros k book Hk. unfold enumerate.
    rewrite list_lookup_fmap, enumerate_from_lookup, Hk. simpl.
    by rewrite Z.add_0_l.
Qed.

(** X16. Every list of books the constructor returns has one element
    for each book of the library, in order, under the title of the
    book and with the drill-down into that book as its callback;
    nothing is committed and the marker column is off. It is returned
    whenever every book parses and has a title, also for an empty
    library; a single book without a title makes the constructor raise
    [KeyError], after that book and those before it were parsed. *)
Theorem books_view_built (books : list Book) w :
  (∀ (view : BooksList.t World) (w' : World),
     books_init books w = (Ok view, w') →
     index (BooksList.container view) = 0 ∧
     selected (BooksList.container view) = -1 ∧
     allow_select (BooksList.container view) = false ∧
     Some <$> (text <$> elements (BooksList.container view))
       = (λ book, metadata book !! "title") <$> books ∧
     ∀ (k : nat) (book : Book),
       books !! k = Some book →
       on_select <$> elements (BooksList.container view) !! k
       = Some (Some (books_select book (Z.of_nat k)))) ∧
  ((∀ book w, (parse book w).1 = Ok tt) →
   Forall (λ book, is_Some (metadata book !! "title")) books →
   ∃ (view : BooksList.t World) (w' : World),
     books_init books w = (Ok view, w')) ∧
  ((∀ book w, (parse book w).1 = Ok tt) →
   ¬ Forall (λ book, is_Some (metadata book !! "title")) books →
   ∃ w' : World, books_init books w = (Raise (KeyError "title"), w')).
Proof.
  split; [|split].
  - intros view w' Hview.
    destruct (books_init_Ok books w view w' Hview)
      as (_ & Hi & Hs & Ha & Ht & He).
    repeat split; try done.
    intros k book Hk. by rewrite (He k book Hk).
  - intros Hparse Hall.
    unfold BooksList.__init__, BooksList._get_elements, bind.
    destruct (books_loop_total (enumerate books) Hparse)
      with (acc := @nil (ListElement World)) (w := w)
      as (els & w' & ->).
    + unfold enumerate. generalize 0.
      induction Hall as [|book books' Hb _ IH]; intros start;
        constructor; [exact Hb|apply IH].
    + by eexists _, _.
  - intros Hparse Hnot.
    unfold BooksList.__init__, BooksList._get_elements, bind, enumerate.
    generalize (@nil (ListElement World)). generalize 0. revert w.
    induction books as [|book books' IH]; intros w start acc.
    + destruct Hnot. constructor.
    + simpl. unfold bind at 1. specialize (Hparse book w) as Hp.
      destruct (parse book w) as [[[]|e] w1]; [|discriminate].
      destruct (metadata book !! "title") as [title|] eqn:Ht.
      * apply IH. intros Hall. apply Hnot. constructor; [|exact Hall].
        rewrite Ht. by eexists.
      * by eexists.
Qed.

(** X17. Committing the row of a book in a list of books records the
    row as committed and builds the list of chapters of that book; when
    that list is built, the terminal title is set to the title of the
    book and the list is pushed, in this order; when building it fails
    the exception is raised, the terminal title is not set and nothing
    is pushed. *)
Theorem book_commit_pushes (books : list Book) w
    (view : BooksList.t World) (w' : World) (k : nat) (book : Book) s :
  books_init books w = (Ok view, w') →
  books !! k = Some book →
  self s = BooksList.container view →
  selected (self (select (Z.of_nat k) s).2) = Z.of_nat k ∧
  match BookChaptersList.__init__ html_format chapters parse_chapter
          render_section push_sections book (world s) with
  | (Ok chapters_view, w1) =>
      ∃ title : string,
        metadata book !! "title" = Some title ∧
        match set_title title w1 with
        | (Ok _, w2) =>
            (select (Z.of_nat k) s).1 = (push chapters_view w2).1 ∧
            world (select (Z.of_nat k) s).2 = (push chapters_view w2).2
        | (Raise e, w2) =>
            (select (Z.of_nat k) s).1 = Raise e ∧
            world (select (Z.of_nat k) s).2 = w2
        end
  | (Raise e, w1) =>
      (select (Z.of_nat k) s).1 = Raise e ∧
      world (select (Z.of_nat k) s).2 = w1
  end.
Proof.
  intros Hview Hk Hs.
  destruct (books_init_Ok books w view w' Hview)
    as (Hall & _ & _ & _ & Htexts & Hels).
  split; [by rewrite select_self|].
  assert (is_Some (metadata book !! "title")) as [title Ht]
    by exact (Forall_lookup_1 _ _ _ _ Hall Hk).
  rewrite select_run, Hs, py_getitem_in_range.
  - rewrite Nat2Z.id, (Hels k book Hk). simpl.
    unfold BooksList.select, bind. rewrite Ht.
    destruct (BookChaptersList.__init__ _ _ _ _ _ _ _)
      as [[chapters_view|e] w1]; [|by split].
    exists title. split; [reflexivity|].
    by destruct (set_title title w1) as [[[]|e] w2].
  - apply lookup_lt_Some in Hk.
    assert (length (elements (BooksList.container view)) = length books)
      as ->.
    { rewrite <- (length_fmap text), <- (length_fmap Some), Htexts.
      by rewrite length_fmap. }
    lia.
Qed.

End BookView.

(** * Further properties of the renderer and of the sidebar menu *)

Section RendererShape.

Import ui.

Lemma get_label_loop_Ok_known (nodes : list Node) :
  ∀ spans : list FormattedText,
  get_label_loop nodes [] = Ok spans → Forall known nodes.
Proof.
  induction nodes as [|node nodes IH]; intros spans; [constructor|].
  rewrite get_label_loop_cons.
  destruct (styles !! tagname node) as [style|] eqn:Hs; [|discriminate].
  destruct (get_label_loop nodes []) as [spans'|]; [|discriminate].
  intros _. constructor; [by exists style|by eapply IH].
Qed.

Lemma get_label_Ok_spans (contents : BookSection) (label : Label) :
  get_label contents = Ok label →
  Forall known (children contents) ∧
  label_text label
  = children contents ≫= λ node, node_spans node (styles !!! tagname node).
Proof.
  unfold get_label.
  destruct (get_label_loop (children contents) []) as [spans|] eqn:Hloop;
    [|discriminate].
  intros [= <-]. pose proof (get_label_loop_Ok_known _ _ Hloop) as Hall.
  split; [exact Hall|].
  rewrite (get_label_loop_known _ Hall) in Hloop. by injection Hloop.
Qed.

(** X18. The label of a section whose nodes are those of a first
    section followed by those of a second is the spans of the first
    followed by the spans of the second; it fails when one of them
    fails, with the exception of the first that does. *)
Theorem get_label_of_concatenation (contents first second : BookSection) :
  children contents = children first ++ children second →
  get_label contents =
  match get_label first with
  | Raise e => Raise e
  | Ok before =>
      match get_label second with
      | Raise e => Raise e
      | Ok after => Ok (mkLabel (label_text before ++ label_text after))
      end
  end.
Proof.
  intros Hch. unfold get_label. rewrite Hch, get_label_loop_app.
  destruct (get_label_loop (children first) []); [|reflexivity].
  by destruct (get_label_loop (children second) []).
Qed.

(** X19. A label that is built has one span for each node and one more
    for each paragraph; every node has its span in it, holding the
    text of the node and the style of its tag, and every span is the
    span of a node or the line break: rendering drops no node and adds
    no text. *)
Theorem get_label_spans (contents : BookSection) (label : Label) :
  get_label contents = Ok label →
  length (label_text label)
  = (length (children contents)
     + length (filter (λ node, tagname node = "Paragraph")
                 (children contents)))%nat ∧
  (∀ node : Node,
     node ∈ children contents →
     ∃ style : string,
       styles !! tagname node = Some style ∧
       to_formatted_text (node_text node) style ∈ label_text label) ∧
  (∀ span : FormattedText,
     span ∈ label_text label →
     span = line_break ∨
     ∃ (node : Node) (style : string),
       node ∈ children contents ∧
       styles !! tagname node = Some style ∧
       span = to_formatted_text (node_text node) style).
Proof.
  intros Hlabel.
  destruct (get_label_Ok_spans _ _ Hlabel) as [Hall ->].
  clear Hlabel. split; [|split].
  - induction Hall as [|node nodes _ _ IH]; [reflexivity|].
    rewrite bind_cons, length_app, IH, filter_cons.
    unfold node_spans.
    destruct (String.eqb_spec (tagname node) "Paragraph");
      destruct (decide (tagname node = "Paragraph")); try done;
      simpl; lia.
  - intros node Hin.
    destruct (proj1 (Forall_forall _ _) Hall node Hin) as [style Hs].
    exists style. split; [exact Hs|].
    apply list_elem_of_bind. exists node. split; [|exact Hin].
    rewrite (lookup_total_correct _ _ _ Hs). unfold node_spans. left.
  - intros span Hin.
    apply list_elem_of_bind in Hin as (node & Hspan & Hnode).
    destruct (proj1 (Forall_forall _ _) Hall node Hnode) as [style Hs].
    rewrite (lookup_total_correct _ _ _ Hs) in Hspan.
    unfold node_spans in Hspan.
    apply elem_of_cons in Hspan as [->|Hrest].
    + right. by exists node, style.
    + left. destruct (String.eqb (tagname node) "Paragraph").
      * by apply list_elem_of_singleton in Hrest.
      * by apply elem_of_nil in Hrest.
Qed.

Lemma render_run (section : BookSection) (layout : Layout) :
  render section layout =
  match get_label section with
  | Ok label => (Ok tt, {| content_children := [label] |})
  | Raise e => (Raise e, layout)
  end.
Proof. unfold render. by destruct (get_label section). Qed.

(** X20. Renders do not pile up: after sections are rendered one after
    the other, the content region holds the one label of the last
    section that could be rendered, whatever it held before and
    whichever sections failed after it; and it is as it was when none
    could be rendered. *)
Theorem render_each_shows_last (sections : list BookSection)
    (layout : Layout) :
  (Forall (λ section, ∃ e, get_label section = Raise e) sections →
   render_each sections layout = layout) ∧
  (∀ (before after : list BookSection) (section : BookSection)
     (label : Label),
     sections = before ++ section :: after →
     get_label section = Ok label →
     Forall (λ section, ∃ e, get_label section = Raise e) after →
     render_each sections layout = {| content_children := [label] |}).
Proof.
  assert (∀ failing layout',
            Forall (λ section, ∃ e, get_label section = Raise e) failing →
            render_each failing layout' = layout') as Hfail.
  { intros failing layout' Hall. revert layout'.
    induction Hall as [|section failing [e He] _ IH]; intros layout';
      [reflexivity|].
    unfold render_each in *. simpl. rewrite render_run, He. apply IH. }
  split; [apply Hfail|].
  intros before after section label -> Hlabel Hafter.
  unfold render_each. rewrite foldl_app. simpl.
  rewrite render_run, Hlabel. simpl. by apply Hfail.
Qed.

End RendererShape.

Section Sidebar.

Import ui.

Context {World : Type}.
Variable chapters : Book → list BookChapter.
Variable parse_book : Book → M World unit.
Variable parse_chapter : BookChapter → M World unit.

(** The loop over items numbered from [start], while the table of
    contents has an entry for each. *)
Lemma get_buttons_loop_Ok (chapter : BookChapter) (items : list string) :
  ∀ (start : nat) (acc : list Button),
  (start + length items ≤ length (toc chapter 1))%nat →
  ∃ buttons : list Button,
    SidebarMenu.get_buttons_loop chapter
      (enumerate_from (Z.of_nat start) items) acc = Ok (acc ++ buttons) ∧
    length buttons = length items ∧
    ∀ (k : nat) (item : string) (section : BookSection) (depth : Z),
      items !! k = Some item →
      toc chapter 1 !! (start + k)%nat = Some (section, depth) →
      buttons !! k
      = Some {| button_text :=
                  pretty (Z.of_nat (start + k) + 1) +:+ ". " +:+ item;
                button_handler := partial_select_section section |}.
Proof.
  induction items as [|item items IH]; intros start acc Hlen.
  - exists []. simpl. rewrite app_nil_r. repeat split.
    intros k item section depth Hk. by rewrite lookup_nil in Hk.
  - simpl in Hlen. cbn [enumerate_from SidebarMenu.get_buttons_loop].
    rewrite py_getitem_in_range by lia. rewrite Nat2Z.id.
    destruct (lookup_lt_is_Some_2 (toc chapter 1) start)
      as [[section depth] Hs]; [lia|]. rewrite Hs.
    replace (Z.of_nat start + 1) with (Z.of_nat (S start)) by lia.
    destruct (IH (S start)
                (acc ++ [ {| button_text :=
                               pretty (Z.of_nat (S start)) +:+ ". " +:+ item;
                             button_handler :=
                               partial_select_section section |} ]))
      as (buttons & Hloop & Hlength & Hlookup); [lia|].
    eexists (_ :: buttons). split; [|split].
    + rewrite Hloop. by rewrite <- app_assoc.
    + simpl. by rewrite Hlength.
    + intros [|k] item' section' depth' Hk Htoc.
      * rewrite Nat.add_0_r in Htoc |- *. rewrite Hs in Htoc.
        injection Htoc as <- <-. injection Hk as <-.
        change ((?b :: buttons) !! 0%nat) with (Some b).
        by replace (Z.of_nat start + 1) with (Z.of_nat (S start)) by lia.
      * change ((?b :: buttons) !! S k) with (buttons !! k).
        rewrite (Hlookup k item' section' depth' Hk)
          by (rewrite <- Htoc; f_equal; lia).
        by replace (Z.of_nat (S start + k)) with (Z.of_nat (start + S k))
          by lia.
Qed.

Lemma get_buttons_loop_short (chapter : BookChapter) (items : list string) :
  ∀ (start : nat) (acc : list Button),
  (start ≤ length (toc chapter 1))%nat →
  (length (toc chapter 1) < start + length items)%nat →
  SidebarMenu.get_buttons_loop chapter
    (enumerate_from (Z.of_nat start) items) acc = Raise IndexError.
Proof.
  induction items as [|item items IH]; intros start acc Hstart Hlen;
    simpl in Hlen; [lia|].
  cbn [enumerate_from SidebarMenu.get_buttons_loop].
  destruct (decide (start = length (toc chapter 1))) as [->|Hne].
  - by rewrite py_getitem_above.
  - rewrite py_getitem_in_range by lia. rewrite Nat2Z.id.
    destruct (lookup_lt_is_Some_2 (toc chapter 1) start)
      as [[section depth] Hs]; [lia|]. rewrite Hs.
    replace (Z.of_nat start + 1) with (Z.of_nat (S start)) by lia.
    apply IH; lia.
Qed.

(** X21. The buttons of the sidebar menu over a chapter are built
    without a failure of the lookups in the table of contents: one
    button for each entry, in order, labelled with its number from one
    and the title of the section and rendering that section, then the
    button Exit. A list of items longer than the table of contents
    makes [get_buttons] raise [IndexError]. *)
Theorem sidebar_buttons (chapter : BookChapter) :
  (∃ buttons : list Button,
     SidebarMenu.get_buttons chapter (SidebarMenu.get_nested_items chapter)
     = Ok (buttons
             ++ [ {| button_text := "Exit"; button_handler := exit |} ]) ∧
     length buttons = length (toc chapter 1) ∧
     ∀ (k : nat) (section : BookSection) (depth : Z),
       toc chapter 1 !! k = Some (section, depth) →
       buttons !! k
       = Some {| button_text :=
                   pretty (Z.of_nat k + 1) +:+ ". "
                     +:+ options_title section;
                 button_handler := partial_select_section section |}) ∧
  (∀ items : list string,
     (length (toc chapter 1) < length items)%nat →
     SidebarMenu.get_buttons chapter items = Raise IndexError).
Proof.
  split.
  - destruct (get_buttons_loop_Ok chapter
                (SidebarMenu.get_nested_items chapter) 0 [])
      as (buttons & Hloop & Hlength & Hlookup).
    { unfold SidebarMenu.get_nested_items. rewrite length_fmap. lia. }
    exists buttons. unfold SidebarMenu.get_buttons, enumerate.
    change 0 with (Z.of_nat 0). rewrite Hloop. split; [reflexivity|].
    split.
    + rewrite Hlength. unfold SidebarMenu.get_nested_items.
      by rewrite length_fmap.
    + intros k section depth Hk.
      apply (Hlookup k (options_title section) section depth); [|exact Hk].
      unfold SidebarMenu.get_nested_items.
      by rewrite list_lookup_fmap, Hk.
  - intros items Hlen. unfold SidebarMenu.get_buttons, enumerate.
    change 0 with (Z.of_nat 0).
    rewrite get_buttons_loop_short; [reflexivity|lia|lia].
Qed.

Lemma sidebar_init_run (books : list Book) (w : World) :
  SidebarMenu.__init__ chapters parse_book parse_chapter books w =
  match books with
  | [] => (Raise IndexError, w)
  | first_book :: _ =>
      match parse_book first_book w with
      | (Raise e, w1) => (Raise e, w1)
      | (Ok _, w1) =>
          match chapters first_book with
          | [] => (Raise IndexError, w1)
          | chapter :: _ =>
              match parse_chapter chapter w1 with
              | (Raise e, w2) => (Raise e, w2)
              | (Ok _, w2) =>
                  match SidebarMenu.get_buttons chapter
                          (SidebarMenu.get_nested_items chapter) with
                  | Raise e => (Raise e, w2)
                  | Ok buttons =>
                      (Ok {| SidebarMenu.chapter := chapter;
                             SidebarMenu.items :=
                               SidebarMenu.get_nested_items chapter;
                             SidebarMenu.buttons := buttons |}, w2)
                  end
              end
          end
      end
  end.
Proof.
  unfold SidebarMenu.__init__.
  destruct books as [|first_book books]; [reflexivity|].
  rewrite py_getitem_head. unfold bind at 1.
  destruct (parse_book first_book w) as [[[]|e] w1]; [|reflexivity].
  destruct (chapters first_book) as [|chapter rest]; [reflexivity|].
  rewrite py_getitem_head. unfold bind.
  destruct (parse_chapter chapter w1) as [[[]|e] w2]; [|reflexivity].
  cbv zeta. by destruct (SidebarMenu.get_buttons _ _).
Qed.

(** X22. The sidebar menu is built over the first chapter of the first
    book: with an empty library its constructor raises [IndexError]
    before anything is parsed, and with a first book without chapters
    it raises [IndexError] once that book is parsed; when the book and
    its first chapter parse, the menu is built, whatever the chapter
    holds, with one item for each entry of its table of contents and
    one button more than items. *)
Theorem sidebar_menu_built (books : list Book) (w : World) :
  (books = [] →
   SidebarMenu.__init__ chapters parse_book parse_chapter books w
   = (Raise IndexError, w)) ∧
  (∀ (first_book : Book) (rest : list Book),
     books = first_book :: rest →
     (parse_book first_book w).1 = Ok tt →
     chapters first_book = [] →
     SidebarMenu.__init__ chapters parse_book parse_chapter books w
     = (Raise IndexError, (parse_book first_book w).2)) ∧
  (∀ (first_book : Book) (rest : list Book) (chapter : BookChapter)
     (others : list BookChapter),
     books = first_book :: rest →
     (parse_book first_book w).1 = Ok tt →
     chapters first_book = chapter :: others →
     (parse_chapter chapter (parse_book first_book w).2).1 = Ok tt →
     ∃ menu : SidebarMenu.t,
       SidebarMenu.__init__ chapters parse_book parse_chapter books w
       = (Ok menu, (parse_chapter chapter (parse_book first_book w).2).2) ∧
       SidebarMenu.chapter menu = chapter ∧
       SidebarMenu.items menu
         = (λ entry, options_title entry.1) <$> toc chapter 1 ∧
       length (SidebarMenu.buttons menu)
         = S (length (SidebarMenu.items menu))).
Proof.
  rewrite sidebar_init_run. split; [|split].
  - by intros ->.
  - intros first_book rest -> Hparse Hch.
    destruct (parse_book first_book w) as [[[]|e] w1]; [|discriminate].
    by rewrite Hch.
  - intros first_book rest chapter others -> Hparse Hch Hparse'.
    destruct (parse_book first_book w) as [[[]|e] w1]; [|discriminate].
    rewrite Hch. simpl in *.
    destruct (parse_chapter chapter w1) as [[[]|e] w2]; [|discriminate].
    destruct (get_buttons_loop_Ok chapter
                (SidebarMenu.get_nested_items chapter) 0 [])
      as (buttons & Hloop & Hlength & _).
    { unfold SidebarMenu.get_nested_items. rewrite length_fmap. lia. }
    unfold SidebarMenu.get_buttons, enumerate.
    change 0 with (Z.of_nat 0). rewrite Hloop. simpl.
    eexists. split; [reflexivity|]. simpl. split; [reflexivity|]. split.
    + unfold SidebarMenu.get_nested_items. apply list_fmap_ext.
      by intros _ [section depth] _.
    + rewrite length_app, Hlength. simpl. lia.
Qed.

End Sidebar.

(** * The further properties on the sample data *)

Section MoreSamples.

Import samples.

(** X1 on the list ["A", "B", "C"] and six inputs. *)
Lemma inputs_keep_shape_witness :
  in_shape (self (start abc)) ∧
  in_shape
    (self (handle_all S pred
             [KeyPress Down; KeyPress Down; KeyPress Tab;
              MouseOver 1 mouse_up; KeyPress BackTab; KeyPress Enter]
             (start abc))).
Proof.
  assert (in_shape (self (start abc))) as Hs
    by (unfold in_shape; simpl; split; [lia|split; [by left|reflexivity]]).
  split; [exact Hs|].
  exact (proj1 (inputs_keep_shape S pred _ (start abc) Hs)).
Defined.

(** X2 on the list whose second element raises: the key Down fails
    with the exception of that element's callback. *)
Lemma handlers_fail_only_in_callbacks_witness :
  in_shape (self (start abc_failing)) ∧
  (handle S pred (KeyPress Down) (start abc_failing)).1
    = Raise (Exception "failed") ∧
  ∃ (element : ListElement nat) (f : Callback nat),
    element ∈ elements (self (start abc_failing)) ∧
    (on_select element = Some f ∨ on_focus element = Some f) ∧
    (f (world (start abc_failing))).1 = Raise (Exception "failed").
Proof.
  assert (in_shape (self (start abc_failing))) as Hs
    by (unfold in_shape; simpl; split; [lia|split; [by left|reflexivity]]).
  assert ((handle S pred (KeyPress Down) (start abc_failing)).1
          = Raise (Exception "failed")) as Hf by reflexivity.
  split; [exact Hs|]. split; [exact Hf|].
  exact (handlers_fail_only_in_callbacks S pred (start abc_failing)
           (KeyPress Down) (Exception "failed") Hs Hf).
Defined.

(** X3 on the list ["A", "B", "C"]: two presses of Tab reach row 2, the
    third leaves the list and calls [focus_next] (here the successor). *)
Lemma tab_walks_then_leaves_witness :
  elements (self (start abc)) ≠ [] ∧
  index (self (start abc)) = 0 ∧
  handle_all S pred (replicate 2 (KeyPress Tab)) (start abc)
    = call_times 2 next (start abc) ∧
  index (self (call_times 2 next (start abc))) = 2 ∧
  world (handle S pred (KeyPress Tab) (call_times 2 next (start abc))).2
    = 1%nat.
Proof.
  assert (elements (self (start abc)) ≠ []) as Hne by done.
  assert (index (self (start abc)) = 0) as H0 by reflexivity.
  destruct (tab_walks_then_leaves S pred (start abc) Hne H0)
    as (Hk & Hix & Htab & _).
  split; [exact Hne|]. split; [exact H0|].
  split; [exact (Hk 2%nat (le_n 2))|]. split; [exact Hix|].
  change (length (elements (self (start abc))) - 1)%nat with 2%nat in Htab.
  by rewrite Htab.
Defined.

(** X4 on the empty list. *)
Lemma empty_list_behaviour_witness :
  elements (self (start no_elements)) = [] ∧
  index (self (start no_elements)) = 0 ∧
  (handle S pred (KeyPress Down) (start no_elements)).1 = Raise IndexError ∧
  index (self (handle S pred (KeyPress Down) (start no_elements)).2) = -1 ∧
  (handle S pred (KeyPress Tab) (start no_elements)).1 = Ok tt.
Proof.
  assert (elements (self (start no_elements)) = []) as Hel by reflexivity.
  assert (index (self (start no_elements)) = 0) as H0 by reflexivity.
  destruct (empty_list_behaviour S pred (start no_elements) Hel H0)
    as (_ & Hboth & _ & Hdown & _ & _ & Htab & _).
  split; [exact Hel|]. split; [exact H0|].
  rewrite Hdown, Htab, (proj2 (Hboth (-1))). repeat split.
Defined.

(** X5 on the list ["A", "B", "C"] with the focus on row 0. *)
Lemma previous_undoes_next_witness :
  0 ≤ index (self (start abc))
    < Z.of_nat (length (elements (self (start abc)))) ∧
  self (previous (next (start abc)).2).2
    = self (focus (index (self (start abc))) (start abc)).2 ∧
  index (self (next (previous (start abc)).2).2) = 1.
Proof.
  assert (0 ≤ index (self (start abc))
            < Z.of_nat (length (elements (self (start abc))))) as Hix
    by (simpl; lia).
  destruct (previous_undoes_next (start abc) Hix) as (Hpn & _ & _ & Hnp).
  split; [exact Hix|]. split.
  - apply Hpn. simpl. lia.
  - exact (Hnp eq_refl).
Defined.


(** X7 on the list ["A", "B", "C"]: a release below the last row. *)
Lemma other_mouse_events_do_nothing_witness :
  (length (elements (self (start abc))) ≤ 3)%nat ∧
  mouse_handler 3 mouse_up (start abc) = (Ok tt, start abc).
Proof.
  assert (length (elements (self (start abc))) ≤ 3)%nat as Hrow
    by (simpl; lia).
  split; [exact Hrow|].
  exact (other_mouse_events_do_nothing (start abc) 3 mouse_up
           (or_intror Hrow)).
Defined.

(** X8 on the list ["A", "B", "C"], row 1, first wrapped line. *)
Lemma line_prefix_alignment_witness :
  1 ≠ 0 ∧
  _get_line_prefix abc 1 1 = "   " ∧
  py_len (_get_line_prefix abc 1 0) = 3%nat.
Proof.
  assert (1 ≠ 0) as Hw by lia.
  destruct (line_prefix_alignment abc 1 1) as (_ & Hlen & Hwrap).
  split; [exact Hw|]. split; [exact (Hwrap Hw)|exact Hlen].
Defined.

(** X9 on the list ["A", "B", "C"]: after the commit of row 1 the
    marker is on row 1 and not on row 2; before it, on no row. *)
Lemma commit_marker_follows_commit_witness :
  _get_line_prefix (self (select 1 (start abc)).2) 1 0 = "•  " ∧
  selected (self (start abc)) = -1 ∧
  0 ≤ 2 ∧
  _get_line_prefix (self (start abc)) 2 0 = "   ".
Proof.
  split; [exact (proj1 (commit_marker_follows_commit (start abc) 1 1 0))|].
  assert (selected (self (start abc)) = -1) as Hsel by reflexivity.
  assert (0 ≤ 2) as Hline by lia.
  split; [exact Hsel|]. split; [exact Hline|].
  exact (proj2 (proj2 (commit_marker_follows_commit (start abc) 1 2 0))
           Hsel Hline).
Defined.

(** X10 on the list ["A", "B", "C"]: one focused fragment, on row 0. *)
Lemma one_focused_fragment_witness :
  length (focused_fragments abc) = 1%nat ∧
  elements abc !! 0%nat = Some (text_only "A") ∧
  ∃ t : string,
    _get_text abc !! 0%nat
    = Some ("class:list-item.focused", t, partial_mouse_select 0).
Proof.
  destruct (one_focused_fragment abc) as [Hcount Hrow].
  split; [exact Hcount|].
  assert (elements abc !! 0%nat = Some (text_only "A")) as He
    by reflexivity.
  split; [exact He|]. exact (Hrow 0%nat _ He).
Defined.

(** X11 on a button twelve characters wide with the text "Ok". *)
Lemma button_label_is_centred_witness :
  2 ≤ Button.width ok_button ∧
  ∃ left right : nat,
    Button._get_text_fragments ok_button
    = Ok [ ("class:button.arrow", "[", Some Button.handler_closure);
           ("[SetCursorPosition]", EmptyString, None);
           ("class:button.text",
            repeat_char space left +:+ Button.text ok_button
              +:+ repeat_char space right,
            Some Button.handler_closure);
           ("class:button.arrow", "]", Some Button.handler_closure) ] ∧
    (left ≤ right ≤ left + 1)%nat ∧
    py_len (repeat_char space left +:+ Button.text ok_button
              +:+ repeat_char space right)
    = Nat.max (Z.to_nat (Button.width ok_button - 2))
        (py_len (Button.text ok_button)).
Proof.
  assert (2 ≤ Button.width ok_button) as Hw by (simpl; lia).
  split; [exact Hw|].
  exact (proj1 (button_label_is_centred ok_button) Hw).
Defined.

(** X12 on the chapter without sections, on the chapter of the book
    without a title and on the chapter of the book whose title holds a
    vertical tab. *)
Lemma section_view_failures_witness :
  ChapterSectionsList.__init__ sample_format log_render lost 0 []
    = (Raise (KeyError "title"), []) ∧
  ChapterSectionsList.__init__ sample_format log_render garbled_chapter 0 []
    = (Raise (Exception "not well-formed (invalid token)"), []) ∧
  ChapterSectionsList.__init__ sample_format log_render blank 1 []
    = (Raise IndexError, []).
Proof.
  destruct (section_view_failures sample_format log_render lost 0 [])
    as (Hkey & _).
  destruct (section_view_failures sample_format log_render
              garbled_chapter 0 []) as (_ & Hformat & _).
  destruct (section_view_failures sample_format log_render blank 1 [])
    as (_ & _ & Hempty & _).
  split; [exact (Hkey eq_refl)|].
  split; [exact (Hformat _ _ eq_refl eq_refl)|].
  exact (Hempty "Basics" _ eq_refl eq_refl eq_refl).
Defined.

(** X13 on the sample chapter: committing row 1 of its list of sections
    renders the second section. *)
Lemma section_view_commit_renders_witness :
  ∃ (view : @ChapterSectionsList.t (list string)) (w' : list string),
    ChapterSectionsList.__init__ sample_format log_render first_steps 0 []
      = (Ok view, w') ∧
    w' = ["render Introduction"] ∧
    text <$> elements (ChapterSectionsList.container view)
      = ["Introduction"; "Odd"] ∧
    world (select 1 {| self := ChapterSectionsList.container view;
                       world := w';
                       invoked := [] |}).2
      = ["render Introduction"; "render Odd"].
Proof.
  eexists _, _. split; [reflexivity|]. split; [reflexivity|].
  destruct (section_view_commit_renders sample_format log_render
              first_steps 0 [] _ _ eq_refl) as [Htexts Hcommit].
  split; [exact Htexts|].
  destruct (Hcommit 1%nat odd 1
              {| self := _; world := ["render Introduction"];
                 invoked := [] |} eq_refl eq_refl)
    as (_ & Hworld & _).
  exact Hworld.
Defined.

(** X14 on the sample book: two chapters, two elements; and on the book
    whose title holds a vertical tab: the format raises and no chapter
    is parsed. *)
Lemma chapters_view_built_witness :
  metadata basics !! "title" = Some "Basics" ∧
  (∀ chapter w, (log_parse_chapter chapter w).1 = Ok tt) ∧
  (∃ (view : BookChaptersList.t (list string)) (w' : list string),
     BookChaptersList.__init__ sample_format chapters_of log_parse_chapter
       log_render log_push_sections basics [] = (Ok view, w') ∧
     selected (BookChaptersList.container view) = -1 ∧
     text <$> elements (BookChaptersList.container view)
       = ["First steps"; "Blank"]) ∧
  BookChaptersList.__init__ sample_format chapters_of log_parse_chapter
    log_render log_push_sections garbled []
  = (Raise (Exception "not well-formed (invalid token)"), []).
Proof.
  assert (metadata basics !! "title" = Some "Basics") as Ht by reflexivity.
  assert (∀ chapter w, (log_parse_chapter chapter w).1 = Ok tt) as Hparse
    by reflexivity.
  split; [exact Ht|]. split; [exact Hparse|]. split.
  - destruct (chapters_view_built sample_format chapters_of
                log_parse_chapter log_render log_push_sections basics [])
      as (Hany & _ & _ & Hsome).
    destruct (Hsome "Basics" _ Ht eq_refl Hparse) as (view & w' & Hview).
    exists view, w'. split; [exact Hview|].
    destruct (Hany view w' Hview) as (_ & _ & Hsel & _ & Htexts & _).
    split; [exact Hsel|exact Htexts].
  - destruct (chapters_view_built sample_format chapters_of
                log_parse_chapter log_render log_push_sections garbled [])
      as (_ & _ & Hformat & _).
    exact (Hformat _ _ eq_refl eq_refl).
Defined.

(** X15 on the sample book: committing its first chapter pushes the
    list of sections after rendering the first section; committing the
    chapter without sections raises and pushes nothing. *)
Lemma chapter_commit_pushes_witness :
  ∃ (view : BookChaptersList.t (list string)) (w' : list string),
    BookChaptersList.__init__ sample_format chapters_of log_parse_chapter
      log_render log_push_sections basics [] = (Ok view, w') ∧
    chapters_of basics !! 0%nat = Some first_steps ∧
    chapters_of basics !! 1%nat = Some blank ∧
    world (select 0 {| self := BookChaptersList.container view;
                       world := [];
                       invoked := [] |}).2
      = ["render Introduction"; "push sections"] ∧
    (select 1 {| self := BookChaptersList.container view;
                 world := [];
                 invoked := [] |}).1 = Raise IndexError ∧
    world (select 1 {| self := BookChaptersList.container view;
                       world := [];
                       invoked := [] |}).2 = [].
Proof.
  eexists _, _. split; [reflexivity|].
  split; [reflexivity|]. split; [reflexivity|].
  destruct (chapter_commit_pushes sample_format chapters_of
              log_parse_chapter log_render log_push_sections basics []
              _ _ 0%nat first_steps
              {| self := _; world := []; invoked := [] |}
              eq_refl eq_refl eq_refl) as [_ Hpush].
  destruct (chapter_commit_pushes sample_format chapters_of
              log_parse_chapter log_render log_push_sections basics []
              _ _ 1%nat blank
              {| self := _; world := []; invoked := [] |}
              eq_refl eq_refl eq_refl) as [_ Hfail].
  split; [exact (proj1 (proj2 Hpush))|].
  split; [exact (proj1 Hfail)|exact (proj2 Hfail)].
Defined.

(** X16 on a library of one book, and on one with an untitled book. *)
Lemma books_view_built_witness :
  (∀ book w, (log_parse_book book w).1 = Ok tt) ∧
  Forall (λ book, is_Some (metadata book !! "title")) [basics] ∧
  ¬ Forall (λ book, is_Some (metadata book !! "title")) [basics; untitled] ∧
  (∃ (view : BooksList.t (list string)) (w' : list string),
     BooksList.__init__ sample_format log_parse_book log_set_title
       log_push_chapters chapters_of log_parse_chapter log_render
       log_push_sections
       [basics] [] = (Ok view, w') ∧
     selected (BooksList.container view) = -1) ∧
  ∃ w' : list string,
    BooksList.__init__ sample_format log_parse_book log_set_title
      log_push_chapters chapters_of log_parse_chapter log_render
      log_push_sections
      [basics; untitled] [] = (Raise (KeyError "title"), w').
Proof.
  assert (∀ book w, (log_parse_book book w).1 = Ok tt) as Hparse
    by reflexivity.
  assert (Forall (λ book, is_Some (metadata book !! "title")) [basics])
    as Hall by (repeat constructor; eexists; reflexivity).
  assert (¬ Forall (λ book, is_Some (metadata book !! "title"))
              [basics; untitled]) as Hnot.
  { intros H. apply Forall_cons_1 in H as [_ H].
    apply Forall_cons_1 in H as [[t Ht] _]. discriminate Ht. }
  split; [exact Hparse|]. split; [exact Hall|]. split; [exact Hnot|].
  split.
  - destruct (books_view_built sample_format log_parse_book log_set_title
                log_push_chapters chapters_of log_parse_chapter log_render
                log_push_sections [basics] []) as (Hany & Hsome & _).
    destruct (Hsome Hparse Hall) as (view & w' & Hview).
    exists view, w'. split; [exact Hview|].
    exact (proj1 (proj2 (Hany view w' Hview))).
  - exact (proj2 (proj2 (books_view_built sample_format log_parse_book
                           log_set_title
                           log_push_chapters chapters_of log_parse_chapter
                           log_render log_push_sections
                           [basics; untitled] [])) Hparse Hnot).
Defined.

(** X17 on the one-book library: committing the book parses its
    chapters, sets the title and pushes the list of chapters. *)
Lemma book_commit_pushes_witness :
  ∃ (view : BooksList.t (list string)) (w' : list string),
    BooksList.__init__ sample_format log_parse_book log_set_title
      log_push_chapters chapters_of log_parse_chapter log_render
      log_push_sections
      [basics] [] = (Ok view, w') ∧
    [basics] !! 0%nat = Some basics ∧
    world (select 0 {| self := BooksList.container view;
                       world := [];
                       invoked := [] |}).2
      = ["parse First steps"; "parse Blank"; "title Basics";
         "push chapters"].
Proof.
  eexists _, _. split; [reflexivity|]. split; [reflexivity|].
  destruct (book_commit_pushes sample_format log_parse_book log_set_title
              log_push_chapters chapters_of log_parse_chapter log_render
              log_push_sections [basics] [] _ _ 0%nat basics
              {| self := _; world := []; invoked := [] |}
              eq_refl eq_refl eq_refl) as [_ Hpush].
  destruct Hpush as (title & Ht & Hpush).
  injection Ht as <-. exact (proj2 Hpush).
Defined.

(** X18 on the sample section split after its paragraph. *)
Lemma get_label_of_concatenation_witness :
  children intro
    = children {| options_title := "a";
                  children := [ {| tagname := "Paragraph";
                                   node_text := "Hello." |} ] |}
      ++ children {| options_title := "b";
                     children := [ {| tagname := "Literal";
                                      node_text := "x = 1" |} ] |} ∧
  ui.get_label intro =
    Ok (ui.mkLabel
          ([ ui.to_formatted_text "Hello." "#fff"; ui.line_break ]
             ++ [ ui.to_formatted_text "x = 1" "#fff" ])).
Proof.
  split; [reflexivity|].
  exact (get_label_of_concatenation intro
           {| options_title := "a";
              children := [ {| tagname := "Paragraph";
                               node_text := "Hello." |} ] |}
           {| options_title := "b";
              children := [ {| tagname := "Literal";
                               node_text := "x = 1" |} ] |}
           eq_refl).
Defined.

(** X19 on the sample section: two nodes, one paragraph, three spans. *)
Lemma get_label_spans_witness :
  ∃ label : ui.Label,
    ui.get_label intro = Ok label ∧
    length (ui.label_text label) = 3%nat.
Proof.
  eexists. split; [reflexivity|].
  exact (proj1 (get_label_spans intro _ eq_refl)).
Defined.

(** X20 on the sample sections: the section that fails after the one
    that renders leaves the label of the latter. *)
Lemma render_each_shows_last_witness :
  ∃ label : ui.Label,
    [odd; intro; odd] = [odd] ++ intro :: [odd] ∧
    ui.get_label intro = Ok label ∧
    Forall (λ section, ∃ e, ui.get_label section = Raise e) [odd] ∧
    ui.render_each [odd; intro; odd] welcome_layout
      = {| ui.content_children := [label] |}.
Proof.
  assert (Forall (λ section, ∃ e, ui.get_label section = Raise e) [odd])
    as Hfail by (repeat constructor; eexists; reflexivity).
  eexists. split; [reflexivity|]. split; [reflexivity|].
  split; [exact Hfail|].
  exact (proj2 (render_each_shows_last [odd; intro; odd] welcome_layout)
           [odd] [odd] intro _ eq_refl eq_refl Hfail).
Defined.

(** X21 on the sample chapter: two sections, three buttons. *)
Lemma sidebar_buttons_witness :
  document.toc first_steps 1 !! 1%nat = Some (odd, 1) ∧
  (length (document.toc first_steps 1) < length ["a"; "b"; "c"])%nat ∧
  ui.SidebarMenu.get_buttons first_steps ["a"; "b"; "c"]
    = Raise IndexError ∧
  ∃ buttons : list ui.Button,
    ui.SidebarMenu.get_buttons first_steps
      (ui.SidebarMenu.get_nested_items first_steps)
    = Ok (buttons
            ++ [ {| ui.button_text := "Exit";
                    ui.button_handler := ui.exit |} ]) ∧
    buttons !! 1%nat
    = Some {| ui.button_text := "2. Odd";
              ui.button_handler := ui.partial_select_section odd |}.
Proof.
  assert (document.toc first_steps 1 !! 1%nat = Some (odd, 1)) as Hk
    by reflexivity.
  assert (length (document.toc first_steps 1) < length ["a"; "b"; "c"])%nat
    as Hlen by (simpl; lia).
  destruct (sidebar_buttons first_steps)
    as [(buttons & Hbuttons & _ & Hlookup) Hshort].
  split; [exact Hk|]. split; [exact Hlen|].
  split; [exact (Hshort _ Hlen)|].
  exists buttons. split; [exact Hbuttons|].
  exact (Hlookup 1%nat odd 1 Hk).
Defined.

(** X22 on the empty library and on the one-book library. *)
Lemma sidebar_menu_built_witness :
  ui.SidebarMenu.__init__ chapters_of log_parse_book log_parse_chapter
    [] [] = (Raise IndexError, []) ∧
  ∃ menu : ui.SidebarMenu.t,
    ui.SidebarMenu.__init__ chapters_of log_parse_book log_parse_chapter
      [basics] [] = (Ok menu, ["parse book"; "parse First steps"]) ∧
    ui.SidebarMenu.items menu = ["Introduction"; "Odd"] ∧
    length (ui.SidebarMenu.buttons menu) = 3%nat.
Proof.
  split.
  - exact (proj1 (sidebar_menu_built chapters_of log_parse_book
                    log_parse_chapter [] []) eq_refl).
  - destruct (proj2 (proj2 (sidebar_menu_built chapters_of log_parse_book
                              log_parse_chapter [basics] []))
                basics [] first_steps [blank]
                eq_refl eq_refl eq_refl eq_refl)
      as (menu & Hmenu & _ & Hitems & Hbuttons).
    exists menu. split; [exact Hmenu|]. split; [exact Hitems|].
    rewrite Hbuttons, Hitems. reflexivity.
Defined.

(** X23 on the list of three counting elements: [select (-1)] calls
    the callback of the last element and leaves both indices -1. *)
Lemma negative_index_commit_witness :
  - Z.of_nat (length (elements (self (start abc_ticking)))) ≤ -1 < 0 ∧
  invoked (select (-1) (start abc_ticking)).2 = [tick] ∧
  selected (self (select (-1) (start abc_ticking)).2) = -1 ∧
  focused_fragments (self (select (-1) (start abc_ticking)).2) = [].
Proof.
  assert (- Z.of_nat (length (elements (self (start abc_ticking)))) ≤ -1 < 0)
    as Hi by (simpl; lia).
  destruct (negative_index_commit (start abc_ticking) (-1) Hi)
    as (element & He & Hinv & _ & Hsel & Hfoc & _).
  split; [exact Hi|]. injection He as <-.
  split; [exact Hinv|]. split; [exact Hsel|exact Hfoc].
Defined.

(** X24 on the list ["A", "B", "C"] from row 0. *)
Lemma movement_from_any_row_witness :
  0 ≤ index (self (start abc))
    < Z.of_nat (length (elements (self (start abc)))) ∧
  index (self (call_times 5 next (start abc))) = 2 ∧
  index (self (call_times 5 previous (start abc))) = 0.
Proof.
  assert (0 ≤ index (self (start abc))
            < Z.of_nat (length (elements (self (start abc))))) as Hix
    by (simpl; lia).
  destruct (movement_from_any_row (start abc) 5 Hix) as (Hn & Hp & _).
  split; [exact Hix|]. split; [exact Hn|exact Hp].
Defined.

(** X25 on the list ["A", "B", "C"] and a release on the text of row 1:
    the dispatch calls the [mouse_select] of a row, and the list stays
    in shape. *)
Lemma control_dispatch_calls_a_row_witness :
  in_shape (self (start abc)) ∧
  in_shape (self (control_mouse_handler mouse_up (start abc)).2) ∧
  elements (self (control_mouse_handler mouse_up (start abc)).2)
    = elements (self (start abc)).
Proof.
  assert (in_shape (self (start abc))) as Hs
    by (unfold in_shape; simpl; split; [lia|split; [by left|reflexivity]]).
  split; [exact Hs|].
  exact (proj2 (control_dispatch_calls_a_row (start abc) mouse_up) Hs).
Defined.

End MoreSamples.
